(** * Hybrid RAG: the decision fabric of [hybrid_rag]

    A shallow embedding of the routing core of the repository
    (classifier.py, router.py, hybrid_rag.py, models.py, config.py)
    and the properties of its specification, settled on that embedding.

    Conventions.
    - A Python [str] is the list of its code points ([pystr]); literals
      are written as UTF-8 text and decoded by [u].
    - A Python [float] is an exact rational ([Q]).  Every comparison the
      code makes is between a quotient [k / 50.0], a literal, or a product
      of literals, and a literal; on those the order of the doubles and the
      order of the rationals agree.
    - [await] is sequential composition: effects are threaded through a
      state-and-exception monad over the state of the collaborators. *)

From Stdlib Require Import List Bool Arith ZArith NArith QArith Lia.
From Stdlib Require Import Ascii String.
Import ListNotations.

Set Implicit Arguments.

(* ================================================================== *)
(** * Python strings *)

Definition pystr : Type := list N.

(** UTF-8 decoding of the bytes of a source literal. *)
Fixpoint utf8_decode (bs : list N) : pystr :=
  match bs with
  | [] => []
  | b :: r =>
      if (b <? 128)%N then b :: utf8_decode r
      else if (b <? 224)%N then
        match r with
        | c :: r' => ((b - 192) * 64 + (c - 128))%N :: utf8_decode r'
        | _ => []
        end
      else if (b <? 240)%N then
        match r with
        | c :: d :: r' =>
            ((b - 224) * 4096 + (c - 128) * 64 + (d - 128))%N :: utf8_decode r'
        | _ => []
        end
      else
        match r with
        | c :: d :: e :: r' =>
            ((b - 240) * 262144 + (c - 128) * 4096 + (d - 128) * 64 + (e - 128))%N
              :: utf8_decode r'
        | _ => []
        end
  end.

Definition u (s : string) : pystr :=
  utf8_decode (List.map N_of_ascii (list_ascii_of_string s)).

Arguments u : simpl never.

Definition pystr_eqb (a b : pystr) : bool :=
  if list_eq_dec N.eq_dec a b then true else false.

(** [str.isspace] on one code point: the separators of [str.split()]. *)
Definition is_space (c : N) : bool :=
  ((9 <=? c) && (c <=? 13) || (28 <=? c) && (c <=? 32)
   || (c =? 133) || (c =? 160) || (c =? 5760)
   || (8192 <=? c) && (c <=? 8202)
   || (c =? 8232) || (c =? 8233) || (c =? 8239) || (c =? 8287)
   || (c =? 12288))%N.

(** [s.split()]: the maximal runs of non-space characters, in order.
    [cur] holds the current run, reversed. *)
Fixpoint split_from (cur : pystr) (s : pystr) : list pystr :=
  match s with
  | [] => match cur with [] => [] | _ => [rev cur] end
  | c :: r =>
      if is_space c then
        match cur with
        | [] => split_from [] r
        | _ => rev cur :: split_from [] r
        end
      else split_from (c :: cur) r
  end.

Definition str_split (s : pystr) : list pystr := split_from [] s.

(** [s.count(c)] for a one-character [c]. *)
Definition str_count (c : N) (s : pystr) : nat :=
  List.length (List.filter (N.eqb c) s).

(** [p] is a prefix of [s], characters compared by [eqc]. *)
Fixpoint starts_with (eqc : N -> N -> bool) (p s : pystr) : bool :=
  match p, s with
  | [], _ => true
  | _ :: _, [] => false
  | a :: p', b :: s' => eqc a b && starts_with eqc p' s'
  end.

(** [p] occurs in [s] at some position. *)
Fixpoint occurs (eqc : N -> N -> bool) (p s : pystr) : bool :=
  starts_with eqc p s
  || match s with
     | [] => false
     | _ :: s' => occurs eqc p s'
     end.

(** [keyword in query]. *)
Definition contains (keyword query : pystr) : bool :=
  occurs N.eqb keyword query.

(** What the code takes from the Python runtime and its version: the
    Unicode tables behind [str.lower], [re.IGNORECASE] and the class [\d],
    and how an f-string renders a member of a [str]-mixed enumeration
    (its value before Python 3.11, its qualified name since). *)
Record PyRuntime : Type := {
  str_lower : pystr -> pystr;
  ci_eq : N -> N -> bool;
  is_decimal : N -> bool;
  format_enum : pystr -> pystr -> pystr
}.

(** A small instance: the tables on Basic Latin and the Cyrillic block,
    which is the alphabet of the patterns, and the older f-string rule. *)
Definition basic_lower_char (c : N) : N :=
  if ((65 <=? c) && (c <=? 90))%N then (c + 32)%N
  else if ((1040 <=? c) && (c <=? 1071))%N then (c + 32)%N
  else if ((1024 <=? c) && (c <=? 1039))%N then (c + 80)%N
  else c.

Definition basic_runtime : PyRuntime := {|
  str_lower := List.map basic_lower_char;
  ci_eq := fun a b => N.eqb (basic_lower_char a) (basic_lower_char b);
  is_decimal := fun c => ((48 <=? c) && (c <=? 57))%N;
  format_enum := fun name value => value
|}.

(** [int(x)] on a float: truncation towards zero. *)
Definition py_int (x : Q) : Z := Z.quot (Qnum x) (Zpos (Qden x)).

Definition Qltb (a b : Q) : bool := negb (Qle_bool b a).

(** [float(n)] for a length or a count. *)
Definition Qnat (n : nat) : Q := inject_Z (Z.of_nat n).

(* ================================================================== *)
(** * models.py *)

Inductive QueryComplexity : Type := SIMPLE | MODERATE | COMPLEX | MULTI_HOP.

Inductive RoutingStrategy : Type := CLASSIC_RAG | AGENTIC_RAG | HYBRID | CACHE.

Inductive AgentType : Type := RESEARCH | ANALYSIS | SYNTHESIS | VERIFICATION | CODE.

Definition complexity_eqb (a b : QueryComplexity) : bool :=
  match a, b with
  | SIMPLE, SIMPLE | MODERATE, MODERATE
  | COMPLEX, COMPLEX | MULTI_HOP, MULTI_HOP => true
  | _, _ => false
  end.

Definition strategy_eqb (a b : RoutingStrategy) : bool :=
  match a, b with
  | CLASSIC_RAG, CLASSIC_RAG | AGENTIC_RAG, AGENTIC_RAG
  | HYBRID, HYBRID | CACHE, CACHE => true
  | _, _ => false
  end.

(** The [.value] of the enumerations. *)
Definition complexity_value (c : QueryComplexity) : pystr :=
  match c with
  | SIMPLE => u "simple"
  | MODERATE => u "moderate"
  | COMPLEX => u "complex"
  | MULTI_HOP => u "multi_hop"
  end.

Definition strategy_name (s : RoutingStrategy) : pystr :=
  match s with
  | CLASSIC_RAG => u "RoutingStrategy.CLASSIC_RAG"
  | AGENTIC_RAG => u "RoutingStrategy.AGENTIC_RAG"
  | HYBRID => u "RoutingStrategy.HYBRID"
  | CACHE => u "RoutingStrategy.CACHE"
  end.

Definition strategy_value (s : RoutingStrategy) : pystr :=
  match s with
  | CLASSIC_RAG => u "classic_rag"
  | AGENTIC_RAG => u "agentic_rag"
  | HYBRID => u "hybrid"
  | CACHE => u "cache"
  end.

(** [RoutingStrategy(value)] and [QueryComplexity(value)]: the first
    member declared with the value; [None] stands for the [ValueError]. *)
Definition strategy_of_value (v : pystr) : option RoutingStrategy :=
  List.find (fun s => pystr_eqb (strategy_value s) v)
    [CLASSIC_RAG; AGENTIC_RAG; HYBRID; CACHE].

Definition complexity_of_value (v : pystr) : option QueryComplexity :=
  List.find (fun c => pystr_eqb (complexity_value c) v)
    [SIMPLE; MODERATE; COMPLEX; MULTI_HOP].

Record QueryMetadata : Type := {
  query_id : pystr;
  original_query : pystr;
  language : pystr;
  complexity : QueryComplexity;
  complexity_score : Q;
  entities : list pystr;
  intent : pystr;
  keywords : list pystr;
  embedding : option (list Q);
  user_id : option pystr;
  session_id : option pystr
}.

Record RoutingDecision : Type := {
  strategy : RoutingStrategy;
  confidence : Q;
  reasoning : pystr;
  fallback_strategies : list RoutingStrategy;
  estimated_time_ms : Z;
  estimated_cost_usd : Q;
  cache_hit : bool
}.

Record Document : Type := {
  doc_id : pystr;
  content : pystr;
  score : option Q
}.

Record AgentResult : Type := {
  agent_type : AgentType;
  agent_id : pystr;
  result : pystr;
  agent_confidence : Q
}.

Record QueryResult : Type := {
  result_query_id : pystr;
  answer : pystr;
  strategy_used : RoutingStrategy;
  confidence_score : Q;
  relevance_score : Q;
  latency_ms : Z;
  tokens_used : Z;
  cost_usd : Q;
  documents_retrieved : list Document;
  agents_used : list AgentType;
  agent_results : list AgentResult;
  execution_path : list pystr;
  reasoning_chain : list pystr;
  metadata : QueryMetadata;
  cached : bool;
  fallback_used : bool;
  error : option pystr
}.

(** Attribute assignments on a [QueryResult]. *)
Definition set_strategy_used (r : QueryResult) (s : RoutingStrategy) : QueryResult :=
  {| result_query_id := result_query_id r; answer := answer r;
     strategy_used := s;
     confidence_score := confidence_score r; relevance_score := relevance_score r;
     latency_ms := latency_ms r; tokens_used := tokens_used r; cost_usd := cost_usd r;
     documents_retrieved := documents_retrieved r; agents_used := agents_used r;
     agent_results := agent_results r; execution_path := execution_path r;
     reasoning_chain := reasoning_chain r; metadata := metadata r;
     cached := cached r; fallback_used := fallback_used r; error := error r |}.

Definition set_cached (r : QueryResult) (b : bool) : QueryResult :=
  {| result_query_id := result_query_id r; answer := answer r;
     strategy_used := strategy_used r;
     confidence_score := confidence_score r; relevance_score := relevance_score r;
     latency_ms := latency_ms r; tokens_used := tokens_used r; cost_usd := cost_usd r;
     documents_retrieved := documents_retrieved r; agents_used := agents_used r;
     agent_results := agent_results r; execution_path := execution_path r;
     reasoning_chain := reasoning_chain r; metadata := metadata r;
     cached := b; fallback_used := fallback_used r; error := error r |}.

Definition set_latency_ms (r : QueryResult) (ms : Z) : QueryResult :=
  {| result_query_id := result_query_id r; answer := answer r;
     strategy_used := strategy_used r;
     confidence_score := confidence_score r; relevance_score := relevance_score r;
     latency_ms := ms; tokens_used := tokens_used r; cost_usd := cost_usd r;
     documents_retrieved := documents_retrieved r; agents_used := agents_used r;
     agent_results := agent_results r; execution_path := execution_path r;
     reasoning_chain := reasoning_chain r; metadata := metadata r;
     cached := cached r; fallback_used := fallback_used r; error := error r |}.

(* ================================================================== *)
(** * config.py *)

Record Settings : Type := {
  complexity_threshold_simple : Q;
  complexity_threshold_complex : Q;
  max_iterations_agentic : Z;
  timeout_seconds : Z
}.

(** [Settings()] with the declared defaults. *)
Definition default_settings : Settings := {|
  complexity_threshold_simple := 0.3;
  complexity_threshold_complex := 0.7;
  max_iterations_agentic := 5;
  timeout_seconds := 30
|}.

(* ================================================================== *)
(** * routing/classifier.py *)

Definition simple_patterns : list pystr :=
  [ u "что такое"; u "кто такой"; u "когда"; u "где находится";
    u "какая столица"; u "дай определение"; u "назови"; u "перечисли" ].

Definition complex_patterns : list pystr :=
  [ u "проанализируй"; u "сравни"; u "оцени влияние"; u "найди все";
    u "исследуй"; u "определи взаимосвязь"; u "сделай прогноз";
    u "разработай стратегию" ].

Definition multi_hop_keywords : list pystr :=
  [ u "и"; u "а также"; u "кроме того"; u "учитывая";
    u "на основе"; u "исходя из"; u "в контексте" ].

(** The [features] dictionary of a classification; a key that a branch
    does not write is [None]. *)
Record Features : Type := {
  pattern_match : option pystr;
  multi_hop_indicators : option nat;
  word_count : nat;
  question_marks : option nat;
  has_enumeration : option bool;
  query_length : nat
}.

Record Classification : Type := {
  cl_complexity : QueryComplexity;
  cl_confidence : Q;
  cl_features : Features
}.

Section Classifier.

Variable Py : PyRuntime.

(** [re.search(pattern, query, re.IGNORECASE)] for a pattern without
    metacharacters. *)
Definition re_search_ignorecase (pattern query : pystr) : bool :=
  occurs (ci_eq Py) pattern query.

(** The tail of [\d+\.] after its first digit: more digits, then a dot. *)
Fixpoint digits_then_dot (s : pystr) : bool :=
  match s with
  | [] => false
  | c :: r => (c =? 46)%N || is_decimal Py c && digits_then_dot r
  end.

(** [re.search(r'\d+\.', query)]. *)
Fixpoint re_search_enumeration (query : pystr) : bool :=
  match query with
  | [] => false
  | c :: r => is_decimal Py c && digits_then_dot r || re_search_enumeration r
  end.

(** [for pattern in patterns: if re.search(...): return ...]: the
    pattern on which the loop returns, if it does. *)
Fixpoint first_match (patterns : list pystr) (query : pystr) : option pystr :=
  match patterns with
  | [] => None
  | pattern :: rest =>
      if re_search_ignorecase pattern query then Some pattern
      else first_match rest query
  end.

Definition _heuristic_classify (query : pystr) : Classification :=
  match first_match simple_patterns query with
  | Some pattern =>
      {| cl_complexity := SIMPLE;
         cl_confidence := 0.85;
         cl_features :=
           {| pattern_match := Some pattern;
              multi_hop_indicators := None;
              word_count := List.length (str_split query);
              question_marks := None;
              has_enumeration := None;
              query_length := List.length query |} |}
  | None =>
      match first_match complex_patterns query with
      | Some pattern =>
          let multi_hop_count :=
            List.length
              (List.filter (fun keyword => contains keyword query)
                 multi_hop_keywords) in
          let complexity :=
            if (2 <=? multi_hop_count)%nat then MULTI_HOP else COMPLEX in
          {| cl_complexity := complexity;
             cl_confidence := 0.75;
             cl_features :=
               {| pattern_match := Some pattern;
                  multi_hop_indicators := Some multi_hop_count;
                  word_count := List.length (str_split query);
                  question_marks := None;
                  has_enumeration := None;
                  query_length := List.length query |} |}
      | None =>
          let word_count := List.length (str_split query) in
          let question_marks := str_count 63 query in
          let has_enumeration := re_search_enumeration query in
          let '(complexity, confidence) :=
            if (word_count <? 10)%nat then (SIMPLE, 0.7)
            else if (word_count <? 30)%nat then (MODERATE, 0.6)
            else if (word_count <? 50)%nat then (COMPLEX, 0.6)
            else (MULTI_HOP, 0.7) in
          let '(complexity, confidence) :=
            if (1 <? question_marks)%nat
            then (MULTI_HOP, confidence * 0.9)
            else (complexity, confidence) in
          let '(complexity, confidence) :=
            if has_enumeration
            then ((if complexity_eqb complexity SIMPLE
                   then MODERATE else complexity),
                  confidence * 0.95)
            else (complexity, confidence) in
          {| cl_complexity := complexity;
             cl_confidence := confidence;
             cl_features :=
               {| pattern_match := None;
                  multi_hop_indicators := None;
                  word_count := word_count;
                  question_marks := Some question_marks;
                  has_enumeration := Some has_enumeration;
                  query_length := List.length query |} |}
      end
  end.

(** [_ml_classify] is the stub of the source: it classifies heuristically. *)
Definition _ml_classify (query_metadata : QueryMetadata) : Classification :=
  _heuristic_classify (str_lower Py (original_query query_metadata)).

(** [classify]: [self.model] is [None], so the heuristics decide. *)
Definition classify (model : bool) (query_metadata : QueryMetadata)
  : Classification :=
  let query := str_lower Py (original_query query_metadata) in
  if model then _ml_classify query_metadata
  else _heuristic_classify query.

(** The reference definition of the specification, written from its
    words; compared with [_heuristic_classify] below. *)
Definition matches_any (patterns : list pystr) (query : pystr) : bool :=
  List.existsb (fun p => re_search_ignorecase p query) patterns.

Definition keywords_present (query : pystr) : nat :=
  List.length (List.filter (fun k => contains k query) multi_hop_keywords).

Definition word_count_range (n : nat) : QueryComplexity * Q :=
  if (n <? 10)%nat then (SIMPLE, 0.7)
  else if (n <? 30)%nat then (MODERATE, 0.6)
  else if (n <? 50)%nat then (COMPLEX, 0.6)
  else (MULTI_HOP, 0.7).

Definition adjust_question_marks (query : pystr) (c : QueryComplexity * Q)
  : QueryComplexity * Q :=
  if (1 <? str_count 63 query)%nat then (MULTI_HOP, snd c * 0.9) else c.

Definition adjust_enumeration (query : pystr) (c : QueryComplexity * Q)
  : QueryComplexity * Q :=
  if re_search_enumeration query
  then (match fst c with SIMPLE => MODERATE | other => other end, snd c * 0.95)
  else c.

Definition heuristic_reference (query : pystr) : QueryComplexity * Q :=
  if matches_any simple_patterns query then (SIMPLE, 0.85)
  else if matches_any complex_patterns query then
    (if (2 <=? keywords_present query)%nat then MULTI_HOP else COMPLEX, 0.75)
  else
    adjust_enumeration query
      (adjust_question_marks query
         (word_count_range (List.length (str_split query)))).

(** [1.0 if ... else 0.0]. *)
Definition one_hot (b : bool) : Q := if b then 1.0 else 0.0.

(** [extract_features]: four counts, then one entry per simple pattern,
    per complex pattern and per multi-hop keyword. *)
Definition extract_features (query : pystr) : list Q :=
  [ Qnat (List.length query);
    Qnat (List.length (str_split query));
    Qnat (str_count 63 query);
    Qnat (str_count 44 query) ]
  ++ List.map (fun pattern => one_hot (re_search_ignorecase pattern query))
       simple_patterns
  ++ List.map (fun pattern => one_hot (re_search_ignorecase pattern query))
       complex_patterns
  ++ List.map (fun keyword => one_hot (contains keyword query))
       multi_hop_keywords.

End Classifier.

(* ================================================================== *)
(** * routing/router.py *)

Section Router.

Variable Py : PyRuntime.

Definition _determine_strategy (complexity : QueryComplexity) (confidence : Q)
  : RoutingStrategy :=
  if complexity_eqb complexity SIMPLE then CLASSIC_RAG
  else if complexity_eqb complexity COMPLEX
          || complexity_eqb complexity MULTI_HOP then AGENTIC_RAG
  else if complexity_eqb complexity MODERATE then
    if Qltb 0.7 confidence then CLASSIC_RAG else HYBRID
  else HYBRID.

Definition _get_fallback_strategies (primary_strategy : RoutingStrategy)
  : list RoutingStrategy :=
  if strategy_eqb primary_strategy AGENTIC_RAG then [HYBRID; CLASSIC_RAG]
  else if strategy_eqb primary_strategy HYBRID then [CLASSIC_RAG; AGENTIC_RAG]
  else if strategy_eqb primary_strategy CLASSIC_RAG then [HYBRID; AGENTIC_RAG]
  else [CLASSIC_RAG].

Definition base_times (s : RoutingStrategy) : Q :=
  match s with
  | CLASSIC_RAG => 200
  | AGENTIC_RAG => 2000
  | HYBRID => 1500
  | CACHE => 10
  end.

Definition complexity_multiplier (c : QueryComplexity) : Q :=
  match c with
  | SIMPLE => 0.5
  | MODERATE => 1.0
  | COMPLEX => 2.0
  | MULTI_HOP => 3.0
  end.

Definition _estimate_time (strategy : RoutingStrategy)
    (query_metadata : QueryMetadata) : Z :=
  py_int (base_times strategy
          * complexity_multiplier (complexity query_metadata)).

Definition base_costs (s : RoutingStrategy) : Q :=
  match s with
  | CLASSIC_RAG => 0.001
  | AGENTIC_RAG => 0.01
  | HYBRID => 0.005
  | CACHE => 0.0
  end.

Definition _estimate_cost (strategy : RoutingStrategy)
    (query_metadata : QueryMetadata) : Q :=
  let query_length := List.length (original_query query_metadata) in
  let length_multiplier := 1.0 + Qnat query_length / 1000.0 in
  base_costs strategy * length_multiplier.

(** The resource check of the source returns its argument. *)
Definition _check_resource_availability (strategy : RoutingStrategy)
  : RoutingStrategy := strategy.

Definition _generate_reasoning (strategy : RoutingStrategy)
    (query_metadata : QueryMetadata) : pystr :=
  match strategy with
  | CLASSIC_RAG =>
      u "Запрос классифицирован как "
        ++ complexity_value (complexity query_metadata)
        ++ u " сложности. Использование Classic RAG для быстрого поиска ответа."
  | AGENTIC_RAG =>
      u "Запрос требует сложного анализа и многоэтапной обработки. Использование Agentic RAG для глубокого исследования."
  | HYBRID =>
      u "Запрос средней сложности требует сбалансированного подхода. Использование гибридной стратегии для оптимального результата."
  | CACHE =>
      u "Найден похожий запрос в кэше. Использование закэшированного результата для мгновенного ответа."
  end.

Definition route (query_metadata : QueryMetadata) : RoutingDecision :=
  let classification := classify Py false query_metadata in
  let strategy :=
    _determine_strategy (complexity query_metadata)
      (cl_confidence classification) in
  let fallback_strategies := _get_fallback_strategies strategy in
  let estimated_time := _estimate_time strategy query_metadata in
  let estimated_cost := _estimate_cost strategy query_metadata in
  let strategy := _check_resource_availability strategy in
  {| strategy := strategy;
     confidence := cl_confidence classification;
     reasoning := _generate_reasoning strategy query_metadata;
     fallback_strategies := fallback_strategies;
     estimated_time_ms := estimated_time;
     estimated_cost_usd := estimated_cost;
     cache_hit := false |}.

End Router.

(* ================================================================== *)
(** * Effects: collaborators, exceptions and the trace of calls *)

(** The result of a call: a value, or an exception carrying [str(e)]. *)
Inductive outcome (A : Type) : Type :=
| Return (a : A)
| Raise (msg : pystr).

Arguments Return {A} a.
Arguments Raise {A} msg.

(** The dictionary a pipeline returns; a key it leaves out is [None]. *)
Record PipelineOutput : Type := {
  out_answer : option pystr;
  out_confidence : option Q;
  out_relevance : option Q;
  out_tokens_used : option Z;
  out_cost : option Q;
  out_documents : option (list Document);
  out_agents_used : option (list AgentType);
  out_agent_results : option (list AgentResult);
  out_execution_path : option (list pystr);
  out_reasoning_chain : option (list pystr)
}.

(** [d.get(key, default)]. *)
Definition dict_get {A : Type} (v : option A) (default : A) : A :=
  match v with
  | Some a => a
  | None => default
  end.

(** The keyword arguments of [MetricsCollector.record]. *)
Record MetricsSample : Type := {
  m_strategy : pystr;
  m_latency_ms : Z;
  m_tokens_used : Z;
  m_cost_usd : Q;
  m_confidence_score : Q;
  m_relevance_score : Q;
  m_cached : bool;
  m_fallback_used : bool
}.

(** The collaborators of [HybridRAG], over their joint state [W]: the
    two pipelines, the cache, the metrics collector, the clock and the
    source of identifiers.  A value a cache returns is the dictionary of a
    [QueryResult], as [_save_to_cache] stores it.  [first_task_raises_first]
    is the schedule of the event loop as [asyncio.gather] sees it: of two
    failing tasks, whether the one created first raised first. *)
Record Collaborators (W : Type) : Type := {
  uuid4 : W -> pystr * W;
  time_time : W -> Q;
  classic_process : QueryMetadata -> W -> outcome PipelineOutput * W;
  orchestrate : QueryMetadata -> W -> outcome PipelineOutput * W;
  cache_get : pystr -> option (list Q) -> W -> outcome (option QueryResult) * W;
  cache_set :
    pystr -> QueryResult -> option (list Q) -> list pystr -> W -> outcome unit * W;
  metrics_record : MetricsSample -> W -> outcome unit * W;
  first_task_raises_first : W -> bool
}.

(** The calls made to the collaborators, in order. *)
Inductive Event : Type :=
| CacheGet (key : pystr)
| CacheSet (key : pystr)
| ClassicProcess
| Orchestrate
| MetricsRecord.



(** The calls to the pipelines that the execution of a strategy makes. *)
Definition pipeline_calls (s : RoutingStrategy) : list Event :=
  match s with
  | CLASSIC_RAG => [ClassicProcess]
  | AGENTIC_RAG => [Orchestrate]
  | HYBRID => [ClassicProcess; Orchestrate]
  | CACHE => []
  end.

(** The calls that store and report a result. *)
Definition is_bookkeeping (e : Event) : bool :=
  match e with
  | CacheSet _ | MetricsRecord => true
  | _ => false
  end.

(** The calls to the cache. *)
Definition is_cache_call (e : Event) : bool :=
  match e with
  | CacheGet _ | CacheSet _ => true
  | _ => false
  end.

Record World (W : Type) : Type := {
  collab : W;
  trace : list Event
}.

(* ================================================================== *)
(** * core/hybrid_rag.py *)

(** The attributes of a [HybridRAG] object.  [self.cache] and
    [self.metrics] are objects exactly when the two flags are set. *)
Record HybridRAG : Type := {
  settings : Settings;
  self_language : pystr;
  cache_enabled : bool;
  monitoring_enabled : bool;
  use_classic_for_simple : bool;
  use_agentic_for_complex : bool
}.

(** [min(a, b)] of Python: the first of the least. *)
Definition py_min (a b : Q) : Q := if Qltb b a then b else a.

Definition apology : pystr :=
  u "Извините, произошла ошибка при обработке вашего запроса.".

Section Core.

Variable Py : PyRuntime.
Variable W : Type.
Variable C : Collaborators W.
Variable self : HybridRAG.

Definition M (A : Type) : Type := World W -> outcome A * World W.

Definition ret {A : Type} (a : A) : M A := fun w => (Return a, w).

Definition raise {A : Type} (msg : pystr) : M A := fun w => (Raise msg, w).

Definition bind {A B : Type} (m : M A) (k : A -> M B) : M B :=
  fun w =>
    match m w with
    | (Return a, w') => k a w'
    | (Raise msg, w') => (Raise msg, w')
    end.

Notation "x <- m ;; k" := (bind m (fun x => k))
  (at level 61, m at next level, right associativity).

(** An awaited call to a collaborator, recorded in the trace. *)
Definition call {A : Type} (e : Event) (f : W -> outcome A * W) : M A :=
  fun w =>
    let (o, s) := f (collab w) in
    (o, {| collab := s; trace := trace w ++ [e] |}).

Definition now : M Q := fun w => (Return (time_time C (collab w)), w).

(** [await asyncio.gather(ta, tb)] on two tasks created in this order.
    Both tasks run; the first exception raised is the one propagated. *)
Definition gather {A B : Type} (ta : M A) (tb : M B) : M (A * B) :=
  fun w =>
    let (oa, w1) := ta w in
    let (ob, w2) := tb w1 in
    match oa, ob with
    | Return a, Return b => (Return (a, b), w2)
    | Raise ea, Return _ => (Raise ea, w2)
    | Return _, Raise eb => (Raise eb, w2)
    | Raise ea, Raise eb =>
        (Raise (if first_task_raises_first C (collab w) then ea else eb), w2)
    end.

(** [result["answer"]]: a [KeyError] when the key is missing. *)
Definition getitem_answer (result : PipelineOutput) : M pystr :=
  match out_answer result with
  | Some a => ret a
  | None => raise (u "'answer'")
  end.

Definition elapsed_ms (t start_time : Q) : Z := py_int ((t - start_time) * 1000).

Definition _analyze_query (query query_id : pystr)
    (user_id session_id : option pystr) : QueryMetadata :=
  let complexity_score := Qnat (List.length (str_split query)) / 50.0 in
  let complexity_score := py_min 1.0 complexity_score in
  let complexity :=
    if Qltb complexity_score 0.3 then SIMPLE
    else if Qltb complexity_score 0.6 then MODERATE
    else if Qltb complexity_score 0.8 then COMPLEX
    else MULTI_HOP in
  {| query_id := query_id;
     original_query := query;
     language := self_language self;
     complexity := complexity;
     complexity_score := complexity_score;
     entities := [];
     intent := u "general";
     keywords := [];
     embedding := None;
     user_id := user_id;
     session_id := session_id |}.

Definition _check_cache (query_metadata : QueryMetadata)
  : M (option QueryResult) :=
  if negb (cache_enabled self) then ret None
  else
    cached <- call (CacheGet (original_query query_metadata))
                (cache_get C (original_query query_metadata)
                   (embedding query_metadata)) ;;
    match cached with
    | Some d => ret (Some (set_cached d true))
    | None => ret None
    end.

(** Every member of [RoutingStrategy] is a non-empty string, hence true
    in [if force_strategy]. *)
Definition _route_query (query_metadata : QueryMetadata)
    (force_strategy : option RoutingStrategy) : RoutingDecision :=
  match force_strategy with
  | Some forced =>
      {| strategy := forced;
         confidence := 1.0;
         reasoning := u "Принудительная стратегия";
         fallback_strategies := [];
         estimated_time_ms := 1000;
         estimated_cost_usd := 0.001;
         cache_hit := false |}
  | None => route Py query_metadata
  end.

Definition _execute_classic_rag (query_metadata : QueryMetadata)
  : M QueryResult :=
  start_time <- now ;;
  result <- call ClassicProcess (classic_process C query_metadata) ;;
  the_answer <- getitem_answer result ;;
  t <- now ;;
  ret {| result_query_id := query_id query_metadata;
         answer := the_answer;
         strategy_used := CLASSIC_RAG;
         confidence_score := dict_get (out_confidence result) 0.8;
         relevance_score := dict_get (out_relevance result) 0.8;
         latency_ms := elapsed_ms t start_time;
         tokens_used := dict_get (out_tokens_used result) 0%Z;
         cost_usd := dict_get (out_cost result) 0.001;
         documents_retrieved := dict_get (out_documents result) [];
         agents_used := [];
         agent_results := [];
         execution_path := [u "classic_rag"];
         reasoning_chain := [];
         metadata := query_metadata;
         cached := false;
         fallback_used := false;
         error := None |}.

Definition _execute_agentic_rag (query_metadata : QueryMetadata)
  : M QueryResult :=
  start_time <- now ;;
  result <- call Orchestrate (orchestrate C query_metadata) ;;
  the_answer <- getitem_answer result ;;
  t <- now ;;
  ret {| result_query_id := query_id query_metadata;
         answer := the_answer;
         strategy_used := AGENTIC_RAG;
         confidence_score := dict_get (out_confidence result) 0.9;
         relevance_score := dict_get (out_relevance result) 0.9;
         latency_ms := elapsed_ms t start_time;
         tokens_used := dict_get (out_tokens_used result) 0%Z;
         cost_usd := dict_get (out_cost result) 0.01;
         documents_retrieved := dict_get (out_documents result) [];
         agents_used := dict_get (out_agents_used result) [];
         agent_results := dict_get (out_agent_results result) [];
         execution_path := dict_get (out_execution_path result) [];
         reasoning_chain := dict_get (out_reasoning_chain result) [];
         metadata := query_metadata;
         cached := false;
         fallback_used := false;
         error := None |}.

Definition _execute_hybrid (query_metadata : QueryMetadata) : M QueryResult :=
  both <- gather (_execute_classic_rag query_metadata)
                 (_execute_agentic_rag query_metadata) ;;
  let '(classic_result, agentic_result) := both in
  let final_result :=
    if Qltb (confidence_score classic_result) (confidence_score agentic_result)
    then agentic_result
    else classic_result in
  ret (set_strategy_used final_result HYBRID).

Definition _execute_query (query_metadata : QueryMetadata)
    (routing_decision : RoutingDecision) : M QueryResult :=
  let strategy := strategy routing_decision in
  if strategy_eqb strategy CLASSIC_RAG then _execute_classic_rag query_metadata
  else if strategy_eqb strategy AGENTIC_RAG then _execute_agentic_rag query_metadata
  else if strategy_eqb strategy HYBRID then _execute_hybrid query_metadata
  else raise (u "Неизвестная стратегия: "
                ++ format_enum Py (strategy_name strategy) (strategy_value strategy)).

Definition _save_to_cache (query_metadata : QueryMetadata)
    (result : QueryResult) : M unit :=
  if negb (cache_enabled self) then ret tt
  else
    call (CacheSet (original_query query_metadata))
      (cache_set C (original_query query_metadata) result
         (embedding query_metadata) (execution_path result)).

Definition _collect_metrics (result : QueryResult) : M unit :=
  if negb (monitoring_enabled self) then ret tt
  else
    call MetricsRecord
      (metrics_record C
         {| m_strategy := strategy_value (strategy_used result);
            m_latency_ms := latency_ms result;
            m_tokens_used := tokens_used result;
            m_cost_usd := cost_usd result;
            m_confidence_score := confidence_score result;
            m_relevance_score := relevance_score result;
            m_cached := cached result;
            m_fallback_used := fallback_used result |}).

Definition _create_error_result (query_id : pystr)
    (query_metadata : option QueryMetadata) (error : pystr) (latency_ms : Z)
  : QueryResult :=
  {| result_query_id := query_id;
     answer := apology;
     strategy_used := CLASSIC_RAG;
     confidence_score := 0.0;
     relevance_score := 0.0;
     latency_ms := latency_ms;
     tokens_used := 0%Z;
     cost_usd := 0.0;
     documents_retrieved := [];
     agents_used := [];
     agent_results := [];
     execution_path := [u "error"];
     reasoning_chain := [];
     metadata :=
       match query_metadata with
       | Some m => m
       | None =>
           {| query_id := query_id;
              original_query := [];
              language := u "ru";
              complexity := SIMPLE;
              complexity_score := 0.0;
              entities := [];
              intent := u "error";
              keywords := [];
              embedding := None;
              user_id := None;
              session_id := None |}
       end;
     cached := false;
     fallback_used := true;
     error := Some error |}.

(** The [try] block of [query] from the routing on: what runs when no
    cached result was returned. *)
Definition query_dispatch (start_time : Q) (query_metadata : QueryMetadata)
    (force_strategy : option RoutingStrategy) : M QueryResult :=
  let routing_decision := _route_query query_metadata force_strategy in
  result <- _execute_query query_metadata routing_decision ;;
  _ <- (if cache_enabled self
        then _save_to_cache query_metadata result else ret tt) ;;
  _ <- (if monitoring_enabled self
        then _collect_metrics result else ret tt) ;;
  t <- now ;;
  ret (set_latency_ms result (elapsed_ms t start_time)).

(** [if self.cache_enabled and not force_strategy]. *)
Definition cache_consulted (force_strategy : option RoutingStrategy) : bool :=
  cache_enabled self
  && match force_strategy with Some _ => false | None => true end.

(** The body of the [try] block of [query], after the analysis. *)
Definition query_try (start_time : Q) (query_metadata : QueryMetadata)
    (force_strategy : option RoutingStrategy) : M QueryResult :=
  cached_result <-
    (if cache_consulted force_strategy
     then _check_cache query_metadata
     else ret None) ;;
  match cached_result with
  | Some r => ret r
  | None => query_dispatch start_time query_metadata force_strategy
  end.

(** [HybridRAG.query].  The argument [metadata] of the source is not
    read by it and is left out; the analysis cannot raise on a [str], so
    [query_metadata] is bound when the handler runs. *)
Definition query (query : pystr) (user_id session_id : option pystr)
    (force_strategy : option RoutingStrategy)
  : World W -> QueryResult * World W :=
  fun w =>
    let start_time := time_time C (collab w) in
    let (query_id, s) := uuid4 C (collab w) in
    let w1 := {| collab := s; trace := trace w |} in
    let query_metadata := _analyze_query query query_id user_id session_id in
    match query_try start_time query_metadata force_strategy w1 with
    | (Return r, w2) => (r, w2)
    | (Raise e, w2) =>
        (_create_error_result query_id (Some query_metadata) e
           (elapsed_ms (time_time C (collab w2)) start_time), w2)
    end.

Definition complex_query (text : pystr) (user_id session_id : option pystr)
  : World W -> QueryResult * World W :=
  query text user_id session_id (Some AGENTIC_RAG).

Definition simple_query (text : pystr) (user_id session_id : option pystr)
  : World W -> QueryResult * World W :=
  query text user_id session_id (Some CLASSIC_RAG).

End Core.

(* ================================================================== *)
(** * A concrete set of collaborators *)

(** [CacheEntry] of models.py, for an exact-match tier. *)
Record CacheEntry : Type := {
  key : pystr;
  value : QueryResult;
  created_at : Q;
  expires_at : option Q;
  hit_count : nat
}.

(** Modelled from the spec: the exact-match tier L1 of [MultiLevelCache]
    (caching/multi_level.py is not among the sources).  An in-memory LRU
    of bounded capacity with a TTL: a lookup hits on an equal key whose
    entry has not expired, and moves the entry to the front and counts the
    hit; an insert at capacity evicts the least recently used entry.  The
    entries are kept most recently used first. *)
Record L1Cache : Type := {
  l1_max_size : nat;
  l1_ttl : Q;
  l1_entries : list CacheEntry
}.

Definition l1_empty : L1Cache :=
  {| l1_max_size := 100; l1_ttl := 3600; l1_entries := [] |}.

Definition l1_without (k : pystr) (es : list CacheEntry) : list CacheEntry :=
  List.filter (fun e => negb (pystr_eqb (key e) k)) es.

Definition l1_fresh (t : Q) (e : CacheEntry) : bool :=
  match expires_at e with
  | Some x => Qle_bool t x
  | None => true
  end.

Definition l1_get (k : pystr) (t : Q) (c : L1Cache)
  : option QueryResult * L1Cache :=
  match List.find (fun e => pystr_eqb (key e) k) (l1_entries c) with
  | Some e =>
      if l1_fresh t e then
        (Some (value e),
         {| l1_max_size := l1_max_size c; l1_ttl := l1_ttl c;
            l1_entries :=
              {| key := key e; value := value e; created_at := created_at e;
                 expires_at := expires_at e; hit_count := S (hit_count e) |}
                :: l1_without k (l1_entries c) |})
      else
        (None,
         {| l1_max_size := l1_max_size c; l1_ttl := l1_ttl c;
            l1_entries := l1_without k (l1_entries c) |})
  | None => (None, c)
  end.

Definition l1_set (k : pystr) (v : QueryResult) (t : Q) (c : L1Cache) : L1Cache :=
  let others := l1_without k (l1_entries c) in
  let kept :=
    if (l1_max_size c <=? List.length others)%nat
    then List.firstn (l1_max_size c - 1) others
    else others in
  {| l1_max_size := l1_max_size c; l1_ttl := l1_ttl c;
     l1_entries :=
       {| key := k; value := v; created_at := t;
          expires_at := Some (t + l1_ttl c); hit_count := 0 |} :: kept |}.

(** The joint state of the concrete collaborators. *)
Record Lab : Type := {
  lab_clock : Q;
  lab_next_id : N;
  lab_l1 : L1Cache;
  lab_samples : list MetricsSample
}.

Definition lab_start : Lab :=
  {| lab_clock := 0; lab_next_id := 0; lab_l1 := l1_empty; lab_samples := [] |}.

Definition lab_tick (d : Q) (l1 : L1Cache) (w : Lab) : Lab :=
  {| lab_clock := lab_clock w + d; lab_next_id := lab_next_id w;
     lab_l1 := l1; lab_samples := lab_samples w |}.

(** Collaborators with the pipelines' behaviour given: [classic] and
    [agentic] say what each pipeline returns or raises, [classic_first]
    which of two failures is raised first. *)
Definition lab (classic agentic : QueryMetadata -> outcome PipelineOutput)
    (classic_first : bool) : Collaborators Lab :=
  {| uuid4 := fun w =>
       (u "query-" ++ [(48 + lab_next_id w)%N],
        {| lab_clock := lab_clock w; lab_next_id := lab_next_id w + 1;
           lab_l1 := lab_l1 w; lab_samples := lab_samples w |});
     time_time := lab_clock;
     classic_process := fun m w => (classic m, lab_tick 0.2 (lab_l1 w) w);
     orchestrate := fun m w => (agentic m, lab_tick 2 (lab_l1 w) w);
     cache_get := fun k _ w =>
       let (hit, l1) := l1_get k (lab_clock w) (lab_l1 w) in
       (Return hit, lab_tick 0.001 l1 w);
     cache_set := fun k v _ _ w =>
       (Return tt, lab_tick 0.001 (l1_set k v (lab_clock w) (lab_l1 w)) w);
     metrics_record := fun s w =>
       (Return tt,
        {| lab_clock := lab_clock w; lab_next_id := lab_next_id w;
           lab_l1 := lab_l1 w; lab_samples := s :: lab_samples w |});
     first_task_raises_first := fun _ => classic_first |}.

(** A pipeline that answers [text] with the given confidence. *)
Definition answers (text : pystr) (conf : option Q)
  : QueryMetadata -> outcome PipelineOutput :=
  fun _ =>
    Return {| out_answer := Some text; out_confidence := conf;
              out_relevance := None; out_tokens_used := None; out_cost := None;
              out_documents := None; out_agents_used := None;
              out_agent_results := None; out_execution_path := None;
              out_reasoning_chain := None |}.

(** A pipeline that raises [Exception(text)]. *)
Definition raises (text : pystr) : QueryMetadata -> outcome PipelineOutput :=
  fun _ => Raise text.

Definition fresh_world : World Lab := {| collab := lab_start; trace := [] |}.

(** [HybridRAG()] with its defaults, over given settings. *)
Definition hybrid_rag (s : Settings) : HybridRAG :=
  {| settings := s; self_language := u "ru";
     cache_enabled := true; monitoring_enabled := true;
     use_classic_for_simple := true; use_agentic_for_complex := true |}.

(** A query of [n] words. *)
Definition words (n : nat) : pystr :=
  List.concat (List.repeat (u "word ") n).

(** ** Scenarios *)

Definition python_question : pystr := u "Что такое Python?".

(** Both pipelines answer; the agentic one is the more confident. *)
Definition lab_ok : Collaborators Lab :=
  lab (answers (u "classic answer") (Some 0.8))
      (answers (u "agentic answer") (Some 0.9)) true.

(** Both pipelines answer with the same confidence. *)
Definition lab_tie : Collaborators Lab :=
  lab (answers (u "classic answer") (Some 0.9))
      (answers (u "agentic answer") (Some 0.9)) true.

(** The classic pipeline raises, the agentic one answers. *)
Definition lab_classic_down : Collaborators Lab :=
  lab (raises (u "classic down")) (answers (u "agentic answer") (Some 0.9)) true.

(** The agentic pipeline raises, the classic one answers. *)
Definition lab_agentic_down : Collaborators Lab :=
  lab (answers (u "classic answer") (Some 0.8)) (raises (u "agent down")) true.

(** Both pipelines raise, the classic one first. *)
Definition lab_both_down : Collaborators Lab :=
  lab (raises (u "classic down")) (raises (u "agent down")) true.

(** The pipelines answer, the metrics collector raises. *)
Definition lab_metrics_down : Collaborators Lab :=
  {| uuid4 := uuid4 lab_ok;
     time_time := time_time lab_ok;
     classic_process := classic_process lab_ok;
     orchestrate := orchestrate lab_ok;
     cache_get := cache_get lab_ok;
     cache_set := cache_set lab_ok;
     metrics_record := fun _ w => (Raise (u "metrics down"), w);
     first_task_raises_first := first_task_raises_first lab_ok |}.

(** The pipelines answer, the cache lookup raises. *)
Definition lab_cache_down : Collaborators Lab :=
  {| uuid4 := uuid4 lab_ok;
     time_time := time_time lab_ok;
     classic_process := classic_process lab_ok;
     orchestrate := orchestrate lab_ok;
     cache_get := fun _ _ w => (Raise (u "cache down"), w);
     cache_set := cache_set lab_ok;
     metrics_record := metrics_record lab_ok;
     first_task_raises_first := first_task_raises_first lab_ok |}.

(** A pipeline whose dictionary has no key [answer]. *)
Definition no_answer : QueryMetadata -> outcome PipelineOutput :=
  fun _ =>
    Return {| out_answer := None; out_confidence := Some 0.8;
              out_relevance := None; out_tokens_used := None; out_cost := None;
              out_documents := None; out_agents_used := None;
              out_agent_results := None; out_execution_path := None;
              out_reasoning_chain := None |}.

Definition lab_no_answer : Collaborators Lab :=
  lab no_answer (answers (u "agentic answer") (Some 0.9)) true.

Definition the_rag : HybridRAG := hybrid_rag default_settings.

(** A configuration whose thresholds are both one half. *)
Definition half_settings : Settings := {|
  complexity_threshold_simple := 0.5;
  complexity_threshold_complex := 0.5;
  max_iterations_agentic := 5;
  timeout_seconds := 30
|}.

Definition python_metadata : QueryMetadata :=
  _analyze_query the_rag python_question (u "query-0") None None.

(** The world after [python_question] was answered once, its trace reset. *)
Definition warm_world : World Lab :=
  {| collab :=
       collab (snd (query basic_runtime lab_ok the_rag python_question
                      None None None fresh_world));
     trace := [] |}.

(** What every result built by a pipeline execution carries. *)
Definition pipeline_result (s : RoutingStrategy) (r : QueryResult) : Prop :=
  strategy_used r = s /\ cached r = false
  /\ fallback_used r = false /\ error r = None.

Ltac unfold_monad :=
  unfold bind, ret, raise, call, now, getitem_answer in *.

(* ================================================================== *)
(** * Comparisons and enumerations *)

Lemma Qltb_true_iff (a b : Q) : Qltb a b = true <-> a < b.
Proof.
  unfold Qltb. rewrite negb_true_iff. split; intro H.
  - destruct (Qlt_le_dec a b) as [Hlt | Hle]; [exact Hlt |].
    apply Qle_bool_iff in Hle. congruence.
  - destruct (Qle_bool b a) eqn:E; [| reflexivity].
    apply Qle_bool_iff in E. exfalso. exact (Qlt_not_le _ _ H E).
Qed.

Lemma Qltb_false_iff (a b : Q) : Qltb a b = false <-> b <= a.
Proof.
  unfold Qltb. rewrite negb_false_iff. apply Qle_bool_iff.
Qed.

Lemma complexity_eqb_eq (a b : QueryComplexity) :
  complexity_eqb a b = true <-> a = b.
Proof. destruct a, b; simpl; split; congruence. Qed.

Lemma strategy_eqb_eq (a b : RoutingStrategy) :
  strategy_eqb a b = true <-> a = b.
Proof. destruct a, b; simpl; split; congruence. Qed.

(* ================================================================== *)
(** * The classifier *)

Section ClassifierFacts.

Variable Py : PyRuntime.

(** The loop over the patterns returns exactly when some pattern matches. *)
Lemma first_match_none (patterns : list pystr) (query : pystr) :
  first_match Py patterns query = None <->
  matches_any Py patterns query = false.
Proof.
  induction patterns as [| p ps IH]; simpl.
  - tauto.
  - destruct (re_search_ignorecase Py p query); simpl.
    + split; discriminate.
    + exact IH.
Qed.

Lemma first_match_some (patterns : list pystr) (query p : pystr) :
  first_match Py patterns query = Some p ->
  matches_any Py patterns query = true.
Proof.
  intro H. destruct (matches_any Py patterns query) eqn:E; [reflexivity |].
  apply first_match_none in E. congruence.
Qed.

(** The pattern reported is the first one, in declaration order, that
    matches: the patterns before it do not. *)
Lemma first_match_is_first (patterns : list pystr) (query p : pystr) :
  first_match Py patterns query = Some p ->
  exists before after,
    patterns = before ++ p :: after
    /\ re_search_ignorecase Py p query = true
    /\ matches_any Py before query = false.
Proof.
  induction patterns as [| a ps IH]; simpl; [discriminate |].
  destruct (re_search_ignorecase Py a query) eqn:E.
  - intro H. injection H as <-. exists [], ps. simpl. auto.
  - intro H. destruct (IH H) as (b & c & -> & Hp & Hb).
    exists (a :: b), c. unfold matches_any in *. simpl.
    rewrite E, Hb. auto.
Qed.

(** No pattern occurs in the empty string. *)
Lemma occurs_in_empty (eqc : N -> N -> bool) (a : N) (p : pystr) :
  occurs eqc (a :: p) [] = false.
Proof. reflexivity. Qed.

Lemma heuristic_classify_empty :
  cl_complexity (_heuristic_classify Py []) = SIMPLE
  /\ cl_confidence (_heuristic_classify Py []) = 0.7.
Proof. split; reflexivity. Qed.

(** C7.  For every query string, [_heuristic_classify] yields the
    complexity and the confidence of the reference definition: a simple
    pattern, tried first, gives (simple, 0.85); otherwise a complex
    pattern gives multi_hop when at least two multi-hop keywords occur
    and complex when fewer do, with 0.75; otherwise the word-count
    ranges apply, then more than one question mark forces multi_hop and
    scales the confidence by 0.9, and an enumeration promotes simple to
    moderate and scales the confidence by 0.95. *)
Theorem C7_heuristic_classify_follows_reference (query : pystr) :
  (cl_complexity (_heuristic_classify Py query),
   cl_confidence (_heuristic_classify Py query))
  = heuristic_reference Py query.
Proof.
  unfold _heuristic_classify, heuristic_reference.
  destruct (first_match Py simple_patterns query) as [p |] eqn:Es.
  - rewrite (first_match_some _ _ Es). reflexivity.
  - apply first_match_none in Es. rewrite Es.
    destruct (first_match Py complex_patterns query) as [p |] eqn:Ec.
    + rewrite (first_match_some _ _ Ec). reflexivity.
    + apply first_match_none in Ec. rewrite Ec.
      unfold adjust_enumeration, adjust_question_marks, word_count_range.
      destruct (List.length (str_split query) <? 10)%nat;
        [| destruct (List.length (str_split query) <? 30)%nat;
           [| destruct (List.length (str_split query) <? 50)%nat ] ];
        destruct (1 <? str_count 63 query)%nat;
        destruct (re_search_enumeration Py query); reflexivity.
Qed.

End ClassifierFacts.

(* ================================================================== *)
(** * The router *)

Section RouterFacts.

Variable Py : PyRuntime.




Lemma fallback_excludes_primary (s : RoutingStrategy) :
  ~ In s (_get_fallback_strategies s).
Proof.
  destruct s; simpl; intuition discriminate.
Qed.

Lemma analyze_empty_is_simple (self : HybridRAG) (id : pystr)
    (uid sid : option pystr) :
  complexity (_analyze_query self [] id uid sid) = SIMPLE.
Proof. reflexivity. Qed.

(** C2.  The strategy selection of the router: simple goes to classic;
    moderate goes to classic when the confidence exceeds 0.7 and to
    hybrid otherwise; complex and multi_hop go to agentic; [route]
    selects by the complexity of the metadata and the confidence of the
    classifier.  The empty query is analysed and classified as simple
    and routed to classic. *)
Theorem C2_router_strategy_selection (m : QueryMetadata) (conf : Q) :
  _determine_strategy SIMPLE conf = CLASSIC_RAG
  /\ (0.7 < conf -> _determine_strategy MODERATE conf = CLASSIC_RAG)
  /\ (conf <= 0.7 -> _determine_strategy MODERATE conf = HYBRID)
  /\ _determine_strategy COMPLEX conf = AGENTIC_RAG
  /\ _determine_strategy MULTI_HOP conf = AGENTIC_RAG
  /\ strategy (route Py m)
     = _determine_strategy (complexity m)
         (cl_confidence (classify Py false m))
  /\ (forall (self : HybridRAG) (id : pystr) (uid sid : option pystr),
        complexity (_analyze_query self [] id uid sid) = SIMPLE
        /\ cl_complexity (_heuristic_classify Py []) = SIMPLE
        /\ strategy (route Py (_analyze_query self [] id uid sid))
           = CLASSIC_RAG).
Proof.
  repeat split; try reflexivity.
  - intro H. unfold _determine_strategy. simpl.
    apply Qltb_true_iff in H. rewrite H. reflexivity.
  - intro H. unfold _determine_strategy. simpl.
    apply Qltb_false_iff in H. rewrite H. reflexivity.
Qed.

(** C4 (amended).  A decision produced by the router carries the fixed
    chain of its strategy: agentic falls back to hybrid then classic,
    hybrid to classic then agentic, classic to hybrid then agentic; the
    chain is not empty and does not contain the strategy.  A decision
    produced for a forced strategy carries the empty list. *)
Theorem C4_fallback_chains (m : QueryMetadata) :
  (let d := route Py m in
   fallback_strategies d = _get_fallback_strategies (strategy d)
   /\ ~ In (strategy d) (fallback_strategies d)
   /\ fallback_strategies d <> [])
  /\ _get_fallback_strategies AGENTIC_RAG = [HYBRID; CLASSIC_RAG]
  /\ _get_fallback_strategies HYBRID = [CLASSIC_RAG; AGENTIC_RAG]
  /\ _get_fallback_strategies CLASSIC_RAG = [HYBRID; AGENTIC_RAG]
  /\ (forall s : RoutingStrategy,
        let d := _route_query Py m (Some s) in
        strategy d = s
        /\ fallback_strategies d = []
        /\ ~ In (strategy d) (fallback_strategies d)).
Proof.
  repeat split; try reflexivity.
  - apply fallback_excludes_primary.
  - simpl. destruct (_determine_strategy _ _); discriminate.
  - simpl. tauto.
Qed.

End RouterFacts.

(* ================================================================== *)
(** * The analyzer *)

Section AnalyzerFacts.

Variable self : HybridRAG.
Variables (query id : pystr) (uid sid : option pystr).

(** The cut-offs of the analyzer are the constants 0.3, 0.6 and 0.8. *)
Lemma analyze_query_cutoffs :
  let m := _analyze_query self query id uid sid in
  (complexity_score m < 0.3 -> complexity m = SIMPLE)
  /\ (0.6 <= complexity_score m ->
      complexity m = COMPLEX \/ complexity m = MULTI_HOP).
Proof.
  unfold _analyze_query. cbv zeta. cbn [complexity complexity_score].
  set (sc := py_min 1.0 (Qnat (List.length (str_split query)) / 50.0)).
  split; intro H.
  - apply Qltb_true_iff in H. rewrite H. reflexivity.
  - assert (H3 : Qltb sc 0.3 = false).
    { apply Qltb_false_iff. apply Qle_trans with (y := 0.6); [| exact H].
      unfold Qle; simpl; lia. }
    assert (H6 : Qltb sc 0.6 = false) by (apply Qltb_false_iff; exact H).
    rewrite H3, H6. destruct (Qltb sc 0.8); auto.
Qed.

Lemma analyze_query_score_bounds :
  let m := _analyze_query self query id uid sid in
  0 <= complexity_score m <= 1.
Proof.
  unfold _analyze_query. cbv zeta. cbn [complexity_score].
  set (x := Qnat (List.length (str_split query)) / 50.0).
  assert (Hx : 0 <= x).
  { unfold x, Qnat, Qdiv, Qle. simpl. lia. }
  unfold py_min. destruct (Qltb x 1.0) eqn:E.
  - apply Qltb_true_iff in E. split; [exact Hx |].
    clearbody x. unfold Qlt, Qle in *. simpl in *. lia.
  - split; unfold Qle; simpl; lia.
Qed.

(** The four bands of the analyzer, by the score. *)
Lemma analyze_query_bands_by_score :
  let m := _analyze_query self query id uid sid in
  (complexity_score m < 0.3 -> complexity m = SIMPLE)
  /\ (0.3 <= complexity_score m -> complexity_score m < 0.6 ->
      complexity m = MODERATE)
  /\ (0.6 <= complexity_score m -> complexity_score m < 0.8 ->
      complexity m = COMPLEX)
  /\ (0.8 <= complexity_score m -> complexity m = MULTI_HOP).
Proof.
  unfold _analyze_query. cbv zeta. cbn [complexity complexity_score].
  set (sc := py_min 1.0 (Qnat (List.length (str_split query)) / 50.0)).
  assert (H36 : 0.3 <= 0.6) by discriminate.
  assert (H68 : 0.6 <= 0.8) by discriminate.
  repeat split.
  - intro H. apply Qltb_true_iff in H. rewrite H. reflexivity.
  - intros H3 H6. apply Qltb_false_iff in H3. apply Qltb_true_iff in H6.
    rewrite H3, H6. reflexivity.
  - intros H6 H8.
    assert (H3 : Qltb sc 0.3 = false).
    { apply Qltb_false_iff. apply Qle_trans with (y := 0.6); assumption. }
    apply Qltb_false_iff in H6. apply Qltb_true_iff in H8.
    rewrite H3, H6, H8. reflexivity.
  - intro H8.
    assert (H6 : Qltb sc 0.6 = false).
    { apply Qltb_false_iff. apply Qle_trans with (y := 0.8); assumption. }
    assert (H3 : Qltb sc 0.3 = false).
    { apply Qltb_false_iff. apply Qle_trans with (y := 0.8); [| assumption].
      discriminate. }
    apply Qltb_false_iff in H8. rewrite H3, H6, H8. reflexivity.
Qed.

(** The analysis reads the language of the object and nothing else of
    it: neither the settings nor the flags. *)
Lemma analyze_query_reads_no_settings (other : HybridRAG) :
  self_language other = self_language self ->
  _analyze_query other query id uid sid = _analyze_query self query id uid sid.
Proof. intro H. unfold _analyze_query. rewrite H. reflexivity. Qed.

(** C8 (amended).  The analyzer classifies with the fixed cut-offs 0.3,
    0.6 and 0.8 and does not read the thresholds of the configuration: a
    score below 0.3 is simple, from 0.3 below 0.6 moderate, from 0.6 below
    0.8 complex, from 0.8 on multi_hop, and an object that differs in its
    settings only yields the same metadata.  For every configuration with
    t_simple at most 0.3 and t_complex at least 0.6 (the defaults 0.3 and
    0.7 among them), a score below t_simple implies complexity simple, and
    a score of at least t_complex implies complex or multi_hop. *)
Theorem C8_thresholds_within_cutoffs
    (Hs : complexity_threshold_simple (settings self) <= 0.3)
    (Hc : 0.6 <= complexity_threshold_complex (settings self)) :
  let m := _analyze_query self query id uid sid in
  (complexity_score m < complexity_threshold_simple (settings self) ->
   complexity m = SIMPLE)
  /\ (complexity_threshold_complex (settings self) <= complexity_score m ->
      complexity m = COMPLEX \/ complexity m = MULTI_HOP)
  /\ (complexity_score m < 0.3 -> complexity m = SIMPLE)
  /\ (0.3 <= complexity_score m -> complexity_score m < 0.6 ->
      complexity m = MODERATE)
  /\ (0.6 <= complexity_score m -> complexity_score m < 0.8 ->
      complexity m = COMPLEX)
  /\ (0.8 <= complexity_score m -> complexity m = MULTI_HOP)
  /\ (forall other : HybridRAG,
        self_language other = self_language self ->
        _analyze_query other query id uid sid = m).
Proof.
  intro m. destruct analyze_query_cutoffs as [Hlow Hhigh]. fold m in Hlow, Hhigh.
  destruct analyze_query_bands_by_score as (B1 & B2 & B3 & B4).
  fold m in B1, B2, B3, B4.
  split; [| split; [| repeat split; try assumption ] ].
  - intro H. apply Hlow.
    apply Qlt_le_trans with (y := complexity_threshold_simple (settings self));
      assumption.
  - intro H. apply Hhigh.
    apply Qle_trans with (y := complexity_threshold_complex (settings self));
      assumption.
  - intros other Ho. apply analyze_query_reads_no_settings. exact Ho.
Qed.

End AnalyzerFacts.

(* ================================================================== *)
(** * Execution of the strategies *)

Section ExecutionFacts.

Variable Py : PyRuntime.
Variable W : Type.
Variable C : Collaborators W.
Variable self : HybridRAG.

Lemma classic_run (m : QueryMetadata) (w : World W) :
  trace (snd (_execute_classic_rag C m w)) = trace w ++ [ClassicProcess]
  /\ forall r, fst (_execute_classic_rag C m w) = Return r ->
               pipeline_result CLASSIC_RAG r.
Proof.
  unfold _execute_classic_rag. unfold_monad. simpl.
  destruct (classic_process C m (collab w)) as [[out | e] s]; simpl.
  - destruct (out_answer out); simpl; split; try reflexivity;
      intros r H; inversion H; repeat split.
  - split; [reflexivity | discriminate].
Qed.

Lemma agentic_run (m : QueryMetadata) (w : World W) :
  trace (snd (_execute_agentic_rag C m w)) = trace w ++ [Orchestrate]
  /\ forall r, fst (_execute_agentic_rag C m w) = Return r ->
               pipeline_result AGENTIC_RAG r.
Proof.
  unfold _execute_agentic_rag. unfold_monad. simpl.
  destruct (orchestrate C m (collab w)) as [[out | e] s]; simpl.
  - destruct (out_answer out); simpl; split; try reflexivity;
      intros r H; inversion H; repeat split.
  - split; [reflexivity | discriminate].
Qed.

(** [gather] runs both tasks, whatever either does. *)
Lemma gather_world (A B : Type) (ta : M W A) (tb : M W B) (w : World W) :
  snd (gather C ta tb w) = snd (tb (snd (ta w))).
Proof.
  unfold gather. destruct (ta w) as [oa w1]. simpl.
  destruct (tb w1) as [ob w2]. simpl.
  destruct oa, ob; reflexivity.
Qed.

Lemma gather_outcome (A B : Type) (ta : M W A) (tb : M W B) (w : World W) :
  fst (gather C ta tb w)
  = match fst (ta w), fst (tb (snd (ta w))) with
    | Return a, Return b => Return (a, b)
    | Raise ea, Return _ => Raise ea
    | Return _, Raise eb => Raise eb
    | Raise ea, Raise eb =>
        Raise (if first_task_raises_first C (collab w) then ea else eb)
    end.
Proof.
  unfold gather. destruct (ta w) as [oa w1]. simpl.
  destruct (tb w1) as [ob w2]. simpl.
  destruct oa, ob; reflexivity.
Qed.

(** [_execute_hybrid] in terms of the outcomes of its two tasks. *)
Lemma hybrid_outcome (m : QueryMetadata) (w : World W) :
  fst (_execute_hybrid C m w)
  = match fst (gather C (_execute_classic_rag C m) (_execute_agentic_rag C m) w) with
    | Return (c, a) =>
        Return (set_strategy_used
                  (if Qltb (confidence_score c) (confidence_score a)
                   then a else c) HYBRID)
    | Raise e => Raise e
    end.
Proof.
  unfold _execute_hybrid, bind.
  destruct (gather C (_execute_classic_rag C m) (_execute_agentic_rag C m) w)
    as [[[c a] | e] w']; reflexivity.
Qed.

Lemma hybrid_world (m : QueryMetadata) (w : World W) :
  snd (_execute_hybrid C m w)
  = snd (gather C (_execute_classic_rag C m) (_execute_agentic_rag C m) w).
Proof.
  unfold _execute_hybrid, bind.
  destruct (gather C (_execute_classic_rag C m) (_execute_agentic_rag C m) w)
    as [[[c a] | e] w']; reflexivity.
Qed.

Lemma hybrid_run (m : QueryMetadata) (w : World W) :
  trace (snd (_execute_hybrid C m w)) = trace w ++ [ClassicProcess; Orchestrate]
  /\ forall r, fst (_execute_hybrid C m w) = Return r ->
               pipeline_result HYBRID r.
Proof.
  split.
  - rewrite hybrid_world, gather_world.
    rewrite (proj1 (agentic_run m _)), (proj1 (classic_run m w)).
    rewrite <- app_assoc. reflexivity.
  - intros r. rewrite hybrid_outcome, gather_outcome.
    destruct (classic_run m w) as [_ Hc].
    destruct (agentic_run m (snd (_execute_classic_rag C m w))) as [_ Ha].
    destruct (fst (_execute_classic_rag C m w)) as [c | ec];
      destruct (fst (_execute_agentic_rag C m (snd (_execute_classic_rag C m w))))
        as [a | ea]; try discriminate.
    intro H. injection H as <-.
    destruct (Hc c eq_refl) as (_ & Hc1 & Hc2 & Hc3).
    destruct (Ha a eq_refl) as (_ & Ha1 & Ha2 & Ha3).
    destruct (Qltb (confidence_score c) (confidence_score a));
      repeat split; assumption.
Qed.

Lemma execute_query_run (m : QueryMetadata) (d : RoutingDecision) (w : World W) :
  trace (snd (_execute_query Py C m d w))
  = trace w ++ pipeline_calls (strategy d)
  /\ forall r, fst (_execute_query Py C m d w) = Return r ->
               pipeline_result (strategy d) r /\ strategy d <> CACHE.
Proof.
  unfold _execute_query. destruct (strategy d); simpl.
  - destruct (classic_run m w) as [Ht Hr]. split; [exact Ht |].
    intros r H. split; [auto | discriminate].
  - destruct (agentic_run m w) as [Ht Hr]. split; [exact Ht |].
    intros r H. split; [auto | discriminate].
  - destruct (hybrid_run m w) as [Ht Hr]. split; [exact Ht |].
    intros r H. split; [auto | discriminate].
  - unfold raise. simpl. split; [symmetry; apply app_nil_r | discriminate].
Qed.

End ExecutionFacts.

(* ================================================================== *)
(** * The query *)

Section QueryFacts.

Variable Py : PyRuntime.
Variable W : Type.
Variable C : Collaborators W.
Variable self : HybridRAG.

(** Once no cached result is returned: the pipelines of the routed
    strategy are called, then only the cache write and the metrics; a
    result that comes back is the one a pipeline built. *)
Lemma dispatch_run (start : Q) (m : QueryMetadata)
    (force : option RoutingStrategy) (w : World W) :
  let out := query_dispatch Py C self start m force w in
  let s := strategy (_route_query Py m force) in
  (exists rest,
      trace (snd out) = trace w ++ pipeline_calls s ++ rest
      /\ forallb is_bookkeeping rest = true)
  /\ forall r, fst out = Return r -> pipeline_result s r /\ s <> CACHE.
Proof.
  cbv zeta. unfold query_dispatch, bind.
  destruct (execute_query_run Py C m (_route_query Py m force) w) as [Ht Hr].
  destruct (_execute_query Py C m (_route_query Py m force) w) as [[r | e] w1];
    simpl in Ht, Hr.
  2:{ simpl. split; [| discriminate].
      exists []. rewrite app_nil_r. auto. }
  destruct (Hr r eq_refl) as [(Hs & Hc & Hf & He) Hn].
  assert (Hfin : forall ms, pipeline_result (strategy (_route_query Py m force))
                              (set_latency_ms r ms) /\
                            strategy (_route_query Py m force) <> CACHE).
  { intro ms. repeat split; assumption. }
  unfold _save_to_cache, _collect_metrics, call, ret, now.
  destruct (cache_enabled self); simpl.
  - destruct (cache_set C (original_query m) r (embedding m)
                (execution_path r) (collab w1)) as [[[] | e] s1]; simpl.
    + destruct (monitoring_enabled self); simpl.
      * match goal with
        | |- context [metrics_record C ?x ?y] =>
            destruct (metrics_record C x y) as [[[] | e] s2]
        end; simpl.
        -- split.
           ++ exists [CacheSet (original_query m); MetricsRecord].
              rewrite Ht, <- !app_assoc. auto.
           ++ intros r' H. injection H as <-. apply Hfin.
        -- split; [| discriminate].
           exists [CacheSet (original_query m); MetricsRecord].
           rewrite Ht, <- !app_assoc. auto.
      * split.
        -- exists [CacheSet (original_query m)].
           rewrite Ht, <- !app_assoc. auto.
        -- intros r' H. injection H as <-. apply Hfin.
    + split; [| discriminate].
      exists [CacheSet (original_query m)]. rewrite Ht, <- !app_assoc. auto.
  - destruct (monitoring_enabled self); simpl.
    + match goal with
      | |- context [metrics_record C ?x ?y] =>
          destruct (metrics_record C x y) as [[[] | e] s2]
      end; simpl.
      * split.
        -- exists [MetricsRecord]. rewrite Ht, <- !app_assoc. auto.
        -- intros r' H. injection H as <-. apply Hfin.
      * split; [| discriminate].
        exists [MetricsRecord]. rewrite Ht, <- !app_assoc. auto.
    + split.
      * exists []. rewrite Ht, app_nil_r. auto.
      * intros r' H. injection H as <-. apply Hfin.
Qed.

(** The three ways through the [try] block: a cached result is
    returned, the lookup raises, or the query is dispatched. *)
Lemma query_try_cases (start : Q) (m : QueryMetadata)
    (force : option RoutingStrategy) (w : World W) :
  let out := query_try Py C self start m force w in
  let looked := {| collab := snd (cache_get C (original_query m) (embedding m) (collab w));
                   trace := trace w ++ [CacheGet (original_query m)] |} in
  (cache_consulted self force = true
   /\ exists d,
       fst (cache_get C (original_query m) (embedding m) (collab w))
       = Return (Some d)
       /\ out = (Return (set_cached d true), looked))
  \/ (cache_consulted self force = true
      /\ exists e,
          fst (cache_get C (original_query m) (embedding m) (collab w))
          = Raise e
          /\ out = (Raise e, looked))
  \/ (cache_consulted self force = true
      /\ fst (cache_get C (original_query m) (embedding m) (collab w))
         = Return None
      /\ out = query_dispatch Py C self start m force looked)
  \/ (cache_consulted self force = false
      /\ out = query_dispatch Py C self start m force w).
Proof.
  cbv zeta. unfold query_try, bind.
  destruct (cache_consulted self force) eqn:Hl.
  - assert (He : cache_enabled self = true).
    { unfold cache_consulted in Hl. apply andb_true_iff in Hl. tauto. }
    unfold _check_cache, bind, call, ret. rewrite He. simpl.
    destruct (cache_get C (original_query m) (embedding m) (collab w))
      as [[[d |] | e] s]; simpl.
    + left. split; [reflexivity |]. exists d. auto.
    + right. right. left. auto.
    + right. left. split; [reflexivity |]. exists e. auto.
  - right. right. right. split; reflexivity.
Qed.

Lemma forced_not_consulted (s : RoutingStrategy) :
  cache_consulted self (Some s) = false.
Proof. unfold cache_consulted. apply andb_false_r. Qed.

(** [query] is its [try] block, with an exception turned into the
    error result. *)
Lemma query_unfold (text : pystr) (uid sid : option pystr)
    (force : option RoutingStrategy) (w : World W) :
  let id := fst (uuid4 C (collab w)) in
  let w1 := {| collab := snd (uuid4 C (collab w)); trace := trace w |} in
  let m := _analyze_query self text id uid sid in
  let out := query_try Py C self (time_time C (collab w)) m force w1 in
  query Py C self text uid sid force w
  = (match fst out with
     | Return r => r
     | Raise e =>
         _create_error_result id (Some m) e
           (elapsed_ms (time_time C (collab (snd out))) (time_time C (collab w)))
     end, snd out).
Proof.
  cbv zeta. unfold query.
  destruct (uuid4 C (collab w)) as [id s]. simpl.
  destruct (query_try Py C self (time_time C (collab w))
              (_analyze_query self text id uid sid) force
              {| collab := s; trace := trace w |}) as [[r | e] w2]; reflexivity.
Qed.

End QueryFacts.

(* ================================================================== *)
(** * The properties of the result *)

Section ResultFacts.

Variable Py : PyRuntime.
Variable W : Type.
Variable C : Collaborators W.
Variable self : HybridRAG.

(** A result of [query] is a cached dictionary marked as cached, or it
    is not marked and its strategy is not [CACHE]. *)
Lemma query_result_cases (text : pystr) (uid sid : option pystr)
    (force : option RoutingStrategy) (w : World W) :
  let r := fst (query Py C self text uid sid force w) in
  (cache_consulted self force = true
   /\ exists d,
       fst (cache_get C text None (snd (uuid4 C (collab w)))) = Return (Some d)
       /\ r = set_cached d true)
  \/ (cached r = false /\ strategy_used r <> CACHE).
Proof.
  cbv zeta. rewrite query_unfold. cbv zeta. cbn [fst].
  set (m := _analyze_query self text (fst (uuid4 C (collab w))) uid sid).
  set (w1 := {| collab := snd (uuid4 C (collab w)); trace := trace w |}).
  destruct (query_try_cases Py C self (time_time C (collab w)) m force w1)
    as [(Hl & d & Hg & Ho) | [(Hl & e & Hg & Ho) | [(Hl & Hg & Ho) | (Hl & Ho)]]];
    cbv zeta in Ho.
  - left. split; [exact Hl |]. exists d. rewrite Ho. auto.
  - right. rewrite Ho. simpl. split; [reflexivity | discriminate].
  - right. rewrite Ho.
    match goal with
    | |- context [query_dispatch Py C self ?st m force ?x] =>
        destruct (dispatch_run Py C self st m force x) as [_ Hr];
        cbv zeta in Hr;
        destruct (fst (query_dispatch Py C self st m force x)) as [r | e]
    end.
    + destruct (Hr r eq_refl) as [(Hs & Hc & _) Hn]. split; congruence.
    + simpl. split; [reflexivity | discriminate].
  - right. rewrite Ho.
    destruct (dispatch_run Py C self (time_time C (collab w)) m force w1)
      as [_ Hr]; cbv zeta in Hr.
    destruct (fst (query_dispatch Py C self (time_time C (collab w)) m force w1))
      as [r | e].
    + destruct (Hr r eq_refl) as [(Hs & Hc & _) Hn]. split; congruence.
    + simpl. split; [reflexivity | discriminate].
Qed.

(** C1 (amended).  The strategy of every result of [query] is one of
    classic_rag, agentic_rag, hybrid and cache; a result whose strategy
    is cache is marked cached; and a result marked cached is the entry
    that the cache lookup returned, with no field but [cached] changed:
    its strategy is the one recorded in the entry. *)
Theorem C1_strategy_and_cached (text : pystr) (uid sid : option pystr)
    (force : option RoutingStrategy) (w : World W) :
  let r := fst (query Py C self text uid sid force w) in
  (strategy_used r = CLASSIC_RAG \/ strategy_used r = AGENTIC_RAG
   \/ strategy_used r = HYBRID \/ strategy_used r = CACHE)
  /\ (strategy_used r = CACHE -> cached r = true)
  /\ (cached r = true ->
      force = None /\ cache_enabled self = true
      /\ exists d,
          fst (cache_get C text None (snd (uuid4 C (collab w))))
          = Return (Some d)
          /\ r = set_cached d true
          /\ strategy_used r = strategy_used d).
Proof.
  intro r. split; [destruct (strategy_used r); auto |].
  destruct (query_result_cases text uid sid force w)
    as [(Hl & d & Hg & Hr) | (Hc & Hn)]; fold r in Hr || fold r in Hc, Hn.
  - split.
    + intros _. rewrite Hr. reflexivity.
    + intros _. unfold cache_consulted in Hl. apply andb_true_iff in Hl.
      destruct Hl as [He Hf]. destruct force; [discriminate |].
      repeat split; try assumption. exists d. rewrite Hr. auto.
  - split; [intro H; contradiction | intro H; congruence].
Qed.

(** What the error result always carries. *)
Lemma error_result_constants (id : pystr) (m : option QueryMetadata)
    (e : pystr) (ms : Z) :
  let r := _create_error_result id m e ms in
  error r = Some e /\ answer r = apology /\ cached r = false
  /\ fallback_used r = true /\ strategy_used r = CLASSIC_RAG.
Proof. repeat split. Qed.





End ResultFacts.

(* ================================================================== *)
(** * Hybrid execution *)

Section HybridFacts.

Variable Py : PyRuntime.
Variable W : Type.
Variable C : Collaborators W.
Variable self : HybridRAG.

(** C6.  When both pipelines succeed in hybrid execution, the agentic
    result is returned when its confidence is strictly higher, the
    classic result otherwise (so on a tie), and the strategy of the
    returned result is set to hybrid. *)
Theorem C6_hybrid_picks_more_confident (m : QueryMetadata) (w : World W)
    (c a : QueryResult)
    (Hc : fst (_execute_classic_rag C m w) = Return c)
    (Ha : fst (_execute_agentic_rag C m (snd (_execute_classic_rag C m w)))
          = Return a) :
  let h := fst (_execute_hybrid C m w) in
  (confidence_score c < confidence_score a ->
   h = Return (set_strategy_used a HYBRID))
  /\ (confidence_score a <= confidence_score c ->
      h = Return (set_strategy_used c HYBRID))
  /\ exists r, h = Return r /\ strategy_used r = HYBRID.
Proof.
  cbv zeta. rewrite hybrid_outcome, gather_outcome, Hc, Ha.
  split; [| split].
  - intro H. apply Qltb_true_iff in H. rewrite H. reflexivity.
  - intro H. apply Qltb_false_iff in H. rewrite H. reflexivity.
  - eexists. split; reflexivity.
Qed.

(** When the hybrid strategy is dispatched and its execution raises, the
    dispatch raises the same error. *)
Lemma dispatch_hybrid_raise (start : Q) (m : QueryMetadata)
    (force : option RoutingStrategy) (w : World W) (e : pystr) :
  strategy (_route_query Py m force) = HYBRID ->
  fst (_execute_hybrid C m w) = Raise e ->
  fst (query_dispatch Py C self start m force w) = Raise e.
Proof.
  intros Hs He. unfold query_dispatch, bind, _execute_query.
  rewrite Hs. cbn [strategy_eqb].
  destruct (_execute_hybrid C m w) as [o w2]. simpl in He. subst o.
  reflexivity.
Qed.

(** C5 (amended).  Hybrid execution does not survive a failing
    pipeline.  If exactly one of the two pipelines fails, hybrid
    execution fails with the error of that pipeline; if both fail, it
    fails with the error of the pipeline that failed first, the agentic
    one only when that one was first.  Whenever [query] executes the
    hybrid strategy and the execution fails, forced or routed, with the
    cache not consulted or after a lookup that missed, it returns the
    error result carrying that error. *)
Theorem C5_hybrid_failure_propagates (m : QueryMetadata) (w : World W)
    (text : pystr) (uid sid : option pystr) :
  (let rc := _execute_classic_rag C m w in
   let ra := _execute_agentic_rag C m (snd rc) in
   let h := fst (_execute_hybrid C m w) in
   (forall ec a, fst rc = Raise ec -> fst ra = Return a -> h = Raise ec)
   /\ (forall c ea, fst rc = Return c -> fst ra = Raise ea -> h = Raise ea)
   /\ (forall ec ea, fst rc = Raise ec -> fst ra = Raise ea ->
       h = Raise (if first_task_raises_first C (collab w) then ec else ea)))
  /\ (let id := fst (uuid4 C (collab w)) in
      let w1 := {| collab := snd (uuid4 C (collab w)); trace := trace w |} in
      let m1 := _analyze_query self text id uid sid in
      forall e, fst (_execute_hybrid C m1 w1) = Raise e ->
        let r := fst (query Py C self text uid sid (Some HYBRID) w) in
        error r = Some e /\ answer r = apology /\ cached r = false)
  /\ (let id := fst (uuid4 C (collab w)) in
      let w1 := {| collab := snd (uuid4 C (collab w)); trace := trace w |} in
      let m1 := _analyze_query self text id uid sid in
      let looked :=
        {| collab := snd (cache_get C text None (collab w1));
           trace := trace w ++ [CacheGet text] |} in
      forall (force : option RoutingStrategy) (e : pystr),
        strategy (_route_query Py m1 force) = HYBRID ->
        (cache_consulted self force = false
         /\ fst (_execute_hybrid C m1 w1) = Raise e)
        \/ (cache_consulted self force = true
            /\ fst (cache_get C text None (collab w1)) = Return None
            /\ fst (_execute_hybrid C m1 looked) = Raise e) ->
        let r := fst (query Py C self text uid sid force w) in
        error r = Some e /\ answer r = apology /\ cached r = false).
Proof.
  split; [| split].
  - cbv zeta. rewrite hybrid_outcome, gather_outcome.
    repeat split; intros x y Hx Hy; rewrite Hx, Hy; reflexivity.
  - cbv zeta. intros e He. rewrite query_unfold. cbv zeta. cbn [fst].
    set (m1 := _analyze_query self text (fst (uuid4 C (collab w))) uid sid) in *.
    set (w1 := {| collab := snd (uuid4 C (collab w)); trace := trace w |}) in *.
    assert (Ht : query_try Py C self (time_time C (collab w)) m1 (Some HYBRID) w1
                 = (Raise e, snd (_execute_hybrid C m1 w1))).
    { unfold query_try, bind. rewrite forced_not_consulted. unfold ret at 1.
      unfold query_dispatch, bind.
      change (_execute_query Py C m1 (_route_query Py m1 (Some HYBRID)))
        with (_execute_hybrid C m1).
      destruct (_execute_hybrid C m1 w1) as [o w2]. simpl in He. subst o.
      reflexivity. }
    rewrite Ht. repeat split.
  - cbv zeta. intros force e Hs Hcase. rewrite query_unfold. cbv zeta. cbn [fst].
    set (m1 := _analyze_query self text (fst (uuid4 C (collab w))) uid sid) in *.
    set (w1 := {| collab := snd (uuid4 C (collab w)); trace := trace w |}) in *.
    destruct (query_try_cases Py C self (time_time C (collab w)) m1 force w1)
      as [(Hl & d & Hg & _) | [(Hl & e1 & Hg & _) | [(Hl & Hg & Ho) | (Hl & Ho)]]];
      cbv zeta in *.
    + exfalso. destruct Hcase as [(Hn & _) | (_ & Hm & _)]; [congruence |].
      unfold w1 in Hm. simpl in Hg, Hm. congruence.
    + exfalso. destruct Hcase as [(Hn & _) | (_ & Hm & _)]; [congruence |].
      unfold w1 in Hm. simpl in Hg, Hm. congruence.
    + destruct Hcase as [(Hn & _) | (_ & _ & He)]; [congruence |].
      rewrite Ho.
      match goal with
      | |- context [fst (query_dispatch Py C self ?st m1 force ?x)] =>
          assert (Hd : fst (query_dispatch Py C self st m1 force x) = Raise e)
            by (apply dispatch_hybrid_raise; [exact Hs | exact He])
      end.
      rewrite Hd. repeat split.
    + destruct Hcase as [(_ & He) | (Hy & _)]; [| congruence].
      rewrite Ho.
      match goal with
      | |- context [fst (query_dispatch Py C self ?st m1 force ?x)] =>
          assert (Hd : fst (query_dispatch Py C self st m1 force x) = Raise e)
            by (apply dispatch_hybrid_raise; [exact Hs | exact He])
      end.
      rewrite Hd. repeat split.
Qed.

End HybridFacts.

(* ================================================================== *)
(** * The claims on concrete runs *)

(** C1, counterexample.  The second of two equal queries is answered
    from the cache: the result is marked cached and its strategy is
    classic_rag, not cache. *)
Lemma C1_cached_result_keeps_strategy :
  let r := fst (query basic_runtime lab_ok the_rag python_question
                  None None None warm_world) in
  cached r = true /\ strategy_used r = CLASSIC_RAG
  /\ ~ (strategy_used r = CACHE <-> cached r = true).
Proof.
  vm_compute. repeat split. intros [_ H]. specialize (H eq_refl). discriminate.
Qed.

(** C3, at the failing input.  The agentic strategy is forced and its
    pipeline raises.  Only that pipeline was called, no fallback; the error
    result reports the classic strategy and a fallback in use. *)
Lemma C3_error_result_misreports :
  let out := complex_query basic_runtime lab_agentic_down the_rag
               python_question None None fresh_world in
  trace (snd out) = [Orchestrate]
  /\ error (fst out) = Some (u "agent down")
  /\ answer (fst out) = apology
  /\ strategy_used (fst out) = CLASSIC_RAG
  /\ fallback_used (fst out) = true.
Proof. vm_compute. repeat split. Qed.

(** C4, counterexample.  The decision for the forced classic strategy
    has an empty fallback list, not the chain hybrid, agentic. *)
Lemma C4_forced_decision_has_no_fallbacks :
  let d := _route_query basic_runtime python_metadata (Some CLASSIC_RAG) in
  strategy d = CLASSIC_RAG
  /\ fallback_strategies d <> [HYBRID; AGENTIC_RAG]
  /\ ~ (strategy d <> CACHE -> fallback_strategies d <> []).
Proof.
  simpl. repeat split; try discriminate.
  intro H. apply H; [discriminate | reflexivity].
Qed.

(** C5, counterexample.  With the classic pipeline down and the agentic
    one answering, hybrid execution raises and no result survives; with
    both down and the classic one failing first, the error is the classic
    one, not the agentic one. *)
Lemma C5_hybrid_does_not_tolerate_failure :
  fst (_execute_hybrid lab_classic_down python_metadata fresh_world)
  = Raise (u "classic down")
  /\ error (fst (query basic_runtime lab_classic_down the_rag python_question
                   None None (Some HYBRID) fresh_world))
     = Some (u "classic down")
  /\ fst (_execute_hybrid lab_both_down python_metadata fresh_world)
     = Raise (u "classic down")
  /\ fst (_execute_hybrid lab_both_down python_metadata fresh_world)
     <> Raise (u "agent down").
Proof. vm_compute. repeat split. discriminate. Qed.

(** C6, witness: the agentic result wins with 0.9 against 0.8. *)
Lemma C6_witness :
  let h := fst (_execute_hybrid lab_ok python_metadata fresh_world) in
  exists c a,
    fst (_execute_classic_rag lab_ok python_metadata fresh_world) = Return c
    /\ answer a = u "agentic answer"
    /\ ((confidence_score c < confidence_score a ->
         h = Return (set_strategy_used a HYBRID))
        /\ (confidence_score a <= confidence_score c ->
            h = Return (set_strategy_used c HYBRID))
        /\ exists r, h = Return r /\ strategy_used r = HYBRID).
Proof.
  eexists. eexists. split; [reflexivity |]. split; [| 
    refine (@C6_hybrid_picks_more_confident Lab lab_ok python_metadata fresh_world
              _ _ eq_refl eq_refl) ].
  reflexivity.
Defined.

(** C8, counterexample.  With the threshold for simple queries at one
    half, a query of twenty words has score 0.4, below the threshold, and
    is moderate; with the threshold for complex queries at one half, a
    query of twenty-five words has score 0.5 and is moderate. *)
Lemma C8_thresholds_are_not_read :
  let self := hybrid_rag half_settings in
  let m20 := _analyze_query self (words 20) (u "query-0") None None in
  let m25 := _analyze_query self (words 25) (u "query-0") None None in
  ~ (complexity_score m20 < complexity_threshold_simple (settings self) ->
     complexity m20 = SIMPLE)
  /\ ~ (complexity_threshold_complex (settings self) <= complexity_score m25 ->
        complexity m25 = COMPLEX \/ complexity m25 = MULTI_HOP).
Proof.
  cbv zeta. split; intro H.
  - assert (E : complexity
                  (_analyze_query (hybrid_rag half_settings) (words 20)
                     (u "query-0") None None) = MODERATE) by (vm_compute; reflexivity).
    rewrite E in H. discriminate H. vm_compute. reflexivity.
  - assert (E : complexity
                  (_analyze_query (hybrid_rag half_settings) (words 25)
                     (u "query-0") None None) = MODERATE) by (vm_compute; reflexivity).
    rewrite E in H. destruct H as [H | H]; try discriminate H.
    vm_compute. discriminate.
Qed.

(** C8, witness: the default configuration.  A query of ten words has
    score 0.2, below t_simple = 0.3, and is simple; a query of forty
    words has score 0.8, at least t_complex = 0.7, and is multi_hop; with
    the settings replaced the metadata is the same. *)
Lemma C8_witness :
  let m10 := _analyze_query the_rag (words 10) (u "query-0") None None in
  let m40 := _analyze_query the_rag (words 40) (u "query-0") None None in
  (complexity_score m10 < complexity_threshold_simple (settings the_rag)
   /\ complexity m10 = SIMPLE)
  /\ (complexity_threshold_complex (settings the_rag) <= complexity_score m40
      /\ (complexity m40 = COMPLEX \/ complexity m40 = MULTI_HOP)
      /\ complexity m40 = MULTI_HOP)
  /\ _analyze_query (hybrid_rag half_settings) (words 10) (u "query-0") None None
     = m10.
Proof.
  assert (Hs : complexity_threshold_simple (settings the_rag) <= 0.3)
    by discriminate.
  assert (Hc : 0.6 <= complexity_threshold_complex (settings the_rag))
    by discriminate.
  pose proof (@C8_thresholds_within_cutoffs the_rag (words 10) (u "query-0")
                None None Hs Hc) as H10.
  pose proof (@C8_thresholds_within_cutoffs the_rag (words 40) (u "query-0")
                None None Hs Hc) as H40.
  cbv zeta in *.
  destruct H10 as (L10 & _ & _ & _ & _ & _ & S10).
  destruct H40 as (_ & T40 & _ & _ & _ & M40 & _).
  assert (P10 : complexity_score
                  (_analyze_query the_rag (words 10) (u "query-0") None None)
                < complexity_threshold_simple (settings the_rag))
    by (vm_compute; reflexivity).
  assert (P40 : complexity_threshold_complex (settings the_rag)
                <= complexity_score
                     (_analyze_query the_rag (words 40) (u "query-0") None None))
    by (vm_compute; discriminate).
  assert (Q40 : 0.8 <= complexity_score
                          (_analyze_query the_rag (words 40) (u "query-0") None None))
    by (vm_compute; discriminate).
  split; [split; [exact P10 | exact (L10 P10)] |].
  split; [split; [exact P40 | split; [exact (T40 P40) | exact (M40 Q40)]] |].
  apply S10. reflexivity.
Defined.




(** The two seed queries of the specification, classified. *)
Example classify_definitional_query :
  let c := classify basic_runtime false python_metadata in
  cl_complexity c = SIMPLE /\ cl_confidence c = 0.85
  /\ pattern_match (cl_features c) = Some (u "что такое").
Proof. vm_compute. repeat split. Qed.

Example classify_analytical_query :
  let c := _heuristic_classify basic_runtime
             (str_lower basic_runtime
                (u "Проанализируй влияние AI на экономику и предложи стратегию адаптации")) in
  cl_complexity c = COMPLEX /\ cl_confidence c = 0.75
  /\ pattern_match (cl_features c) = Some (u "проанализируй")
  /\ multi_hop_indicators (cl_features c) = Some 1%nat.
Proof. vm_compute. repeat split. Qed.

(** An enumeration promotes a short query to moderate; two question
    marks force multi_hop. *)
Example classify_enumeration_and_questions :
  let c := _heuristic_classify basic_runtime (u "1. python 2. rust") in
  let d := _heuristic_classify basic_runtime (u "python? rust?") in
  cl_complexity c = MODERATE /\ cl_confidence c = 0.7 * 0.95
  /\ cl_complexity d = MULTI_HOP /\ cl_confidence d = 0.7 * 0.9.
Proof. vm_compute. repeat split. Qed.

(** On a tie the classic result is the one returned, marked hybrid. *)
Example hybrid_tie_returns_classic :
  exists r,
    fst (_execute_hybrid lab_tie python_metadata fresh_world) = Return r
    /\ answer r = u "classic answer"
    /\ strategy_used r = HYBRID.
Proof. eexists. vm_compute. repeat split. Qed.

(* ================================================================== *)
(** * Further properties: enumerations, analyzer and classifier *)

Lemma pystr_eqb_eq (a b : pystr) : pystr_eqb a b = true <-> a = b.
Proof.
  unfold pystr_eqb. destruct (list_eq_dec N.eq_dec a b); split; congruence.
Qed.

(** X18.  The values of the two enumerations identify their members:
    looking a member up by its value gives the member back, and a value
    that is found is the value of the member found. *)
Theorem enum_value_round_trip :
  (forall s, strategy_of_value (strategy_value s) = Some s)
  /\ (forall v s, strategy_of_value v = Some s -> v = strategy_value s)
  /\ (forall c, complexity_of_value (complexity_value c) = Some c)
  /\ (forall v c, complexity_of_value v = Some c -> v = complexity_value c).
Proof.
  repeat split.
  - intros []; vm_compute; reflexivity.
  - intros v s. unfold strategy_of_value. cbn [List.find].
    repeat (match goal with
            | |- context [pystr_eqb ?a v] =>
                destruct (pystr_eqb a v) eqn:E;
                [ apply pystr_eqb_eq in E; intro H; injection H as <-;
                  symmetry; exact E | clear E ]
            end).
    discriminate.
  - intros []; vm_compute; reflexivity.
  - intros v c. unfold complexity_of_value. cbn [List.find].
    repeat (match goal with
            | |- context [pystr_eqb ?a v] =>
                destruct (pystr_eqb a v) eqn:E;
                [ apply pystr_eqb_eq in E; intro H; injection H as <-;
                  symmetry; exact E | clear E ]
            end).
    discriminate.
Qed.

(** The score of [n] words is below [a / 10] exactly when [n < 5 a]. *)
Lemma score_ltb (n : nat) (a : Z) :
  (0 < a <= 10)%Z ->
  Qltb (py_min 1.0 (Qnat n / 50.0)) (a # 10) = (Z.of_nat n <? a * 5)%Z.
Proof.
  intro Ha. unfold py_min.
  destruct (Qltb (Qnat n / 50.0) 1.0) eqn:E;
    [apply Qltb_true_iff in E | apply Qltb_false_iff in E];
    destruct (Z.ltb_spec (Z.of_nat n) (a * 5));
    try (apply Qltb_true_iff); try (apply Qltb_false_iff);
    unfold Qlt, Qle, Qdiv, Qmult, Qinv, Qnat in *; simpl in *; lia.
Qed.

Section AnalyzerBands.

Variable self : HybridRAG.
Variables (query id : pystr) (uid sid : option pystr).

(** X1.  The analyzer decides by the number of words alone: fewer than
    15 words are simple, 15 to 29 moderate, 30 to 39 complex, 40 or more
    multi_hop. *)
Theorem analyze_query_word_bands :
  let n := List.length (str_split query) in
  let m := _analyze_query self query id uid sid in
  ((n < 15)%nat -> complexity m = SIMPLE)
  /\ ((15 <= n < 30)%nat -> complexity m = MODERATE)
  /\ ((30 <= n < 40)%nat -> complexity m = COMPLEX)
  /\ ((40 <= n)%nat -> complexity m = MULTI_HOP).
Proof.
  cbv zeta. unfold _analyze_query. cbv zeta. cbn [complexity].
  set (n := List.length (str_split query)).
  rewrite (@score_ltb n 3), (@score_ltb n 6), (@score_ltb n 8) by lia.
  repeat split; intro H;
    destruct (Z.ltb_spec (Z.of_nat n) (3 * 5));
    destruct (Z.ltb_spec (Z.of_nat n) (6 * 5));
    destruct (Z.ltb_spec (Z.of_nat n) (8 * 5));
    try reflexivity; lia.
Qed.

(** X2.  The score is the fraction of fifty words, capped: it lies
    between 0 and 1, and it is 1 from fifty words on. *)
Theorem analyze_query_score_range :
  let n := List.length (str_split query) in
  let m := _analyze_query self query id uid sid in
  0 <= complexity_score m <= 1
  /\ ((n < 50)%nat -> complexity_score m == Qnat n / 50)
  /\ ((50 <= n)%nat -> complexity_score m == 1).
Proof.
  cbv zeta. unfold _analyze_query. cbv zeta. cbn [complexity_score].
  set (n := List.length (str_split query)). unfold py_min.
  destruct (Qltb (Qnat n / 50.0) 1.0) eqn:E;
    [apply Qltb_true_iff in E | apply Qltb_false_iff in E];
    unfold Qlt, Qle, Qeq, Qdiv, Qmult, Qinv, Qnat in *; simpl in *;
    repeat split; intros; lia.
Qed.

End AnalyzerBands.

Section ClassifierBounds.

Variable Py : PyRuntime.

(** X3.  The confidence of the heuristic classification is above 0.5
    and at most 0.85, for every query; so is the confidence of every
    decision of the router. *)
Theorem classifier_confidence_bounds (query : pystr) (m : QueryMetadata) :
  (0.5 < cl_confidence (_heuristic_classify Py query)
   /\ cl_confidence (_heuristic_classify Py query) <= 0.85)
  /\ (0.5 < confidence (route Py m) /\ confidence (route Py m) <= 0.85).
Proof.
  assert (H : forall q, 0.5 < cl_confidence (_heuristic_classify Py q)
                        /\ cl_confidence (_heuristic_classify Py q) <= 0.85).
  { intro q. unfold _heuristic_classify.
    destruct (first_match Py simple_patterns q);
      [ split; [reflexivity | discriminate] |].
    destruct (first_match Py complex_patterns q);
      [ split; [reflexivity | discriminate] |].
    destruct (List.length (str_split q) <? 10)%nat;
      [| destruct (List.length (str_split q) <? 30)%nat;
         [| destruct (List.length (str_split q) <? 50)%nat ] ];
      destruct (1 <? str_count 63 q)%nat;
      destruct (re_search_enumeration Py q);
      split; (reflexivity || discriminate). }
  split; [apply H |].
  unfold route, classify. cbn [confidence]. apply H.
Qed.

(** X4.  The pattern a classification reports is the first, in the
    order of declaration, that occurs in the query: a simple pattern with
    no simple pattern before it occurring, or, when no simple pattern
    occurs at all, a complex pattern with no complex pattern before it
    occurring. *)
Theorem reported_pattern_is_first_match (query p : pystr)
    (H : pattern_match (cl_features (_heuristic_classify Py query)) = Some p) :
  re_search_ignorecase Py p query = true
  /\ ((cl_complexity (_heuristic_classify Py query) = SIMPLE
       /\ exists before after,
           simple_patterns = before ++ p :: after
           /\ matches_any Py before query = false)
      \/ (matches_any Py simple_patterns query = false
          /\ exists before after,
              complex_patterns = before ++ p :: after
              /\ matches_any Py before query = false)).
Proof.
  revert H. unfold _heuristic_classify.
  destruct (first_match Py simple_patterns query) as [ps |] eqn:Es.
  - cbn [pattern_match cl_features cl_complexity]. intro H. injection H as ->.
    destruct (first_match_is_first Py _ _ Es) as (b & a & Hl & Hm & Hb).
    split; [exact Hm |]. left. split; [reflexivity |]. exists b, a. auto.
  - destruct (first_match Py complex_patterns query) as [pc |] eqn:Ec.
    + cbn [pattern_match cl_features cl_complexity]. intro H. injection H as ->.
      destruct (first_match_is_first Py _ _ Ec) as (b & a & Hl & Hm & Hb).
      split; [exact Hm |]. right.
      split; [apply first_match_none; exact Es |]. exists b, a. auto.
    + destruct (List.length (str_split query) <? 10)%nat;
        [| destruct (List.length (str_split query) <? 30)%nat;
           [| destruct (List.length (str_split query) <? 50)%nat ] ];
        destruct (1 <? str_count 63 query)%nat;
        destruct (re_search_enumeration Py query); cbn; discriminate.
Qed.

(** X5.  When no pattern occurs in the query: two or more question marks
    make it multi_hop whatever its length; an enumeration never leaves it
    simple; and it is simple only with fewer than ten words, at most one
    question mark and no enumeration. *)
Theorem structural_classification (query : pystr)
    (Hs : matches_any Py simple_patterns query = false)
    (Hc : matches_any Py complex_patterns query = false) :
  let c := cl_complexity (_heuristic_classify Py query) in
  ((2 <= str_count 63 query)%nat -> c = MULTI_HOP)
  /\ (re_search_enumeration Py query = true -> c <> SIMPLE)
  /\ (c = SIMPLE ->
      (List.length (str_split query) < 10)%nat
      /\ (str_count 63 query <= 1)%nat
      /\ re_search_enumeration Py query = false).
Proof.
  cbv zeta. unfold _heuristic_classify.
  apply first_match_none in Hs. apply first_match_none in Hc.
  rewrite Hs, Hc.
  destruct (Nat.ltb_spec (List.length (str_split query)) 10);
    [| destruct (Nat.ltb_spec (List.length (str_split query)) 30);
       [| destruct (Nat.ltb_spec (List.length (str_split query)) 50) ] ];
    destruct (Nat.ltb_spec 1 (str_count 63 query));
    destruct (re_search_enumeration Py query); cbn;
    repeat split; intros; try congruence; try lia;
    try (intuition congruence).
Qed.

End ClassifierBounds.

(* ================================================================== *)
(** * Further properties: features, estimates and the routing table *)

Lemma one_hot_cases (b : bool) : one_hot b = 0.0 \/ one_hot b = 1.0.
Proof. destruct b; auto. Qed.

Lemma existsb_one_hot (A : Type) (f : A -> bool) (l : list A) :
  List.existsb (fun x => Qeq_bool x 1.0) (List.map (fun a => one_hot (f a)) l)
  = List.existsb f l.
Proof.
  induction l as [| a l IH]; simpl; [reflexivity |].
  rewrite IH. destruct (f a); reflexivity.
Qed.

Section FeatureFacts.

Variable Py : PyRuntime.

(** X6.  The feature vector has 27 entries for every query: four
    non-negative counts, then 23 entries that are each 0 or 1. *)
Theorem extract_features_shape (query : pystr) :
  List.length (extract_features Py query) = 27%nat
  /\ Forall (fun x => 0 <= x) (List.firstn 4 (extract_features Py query))
  /\ Forall (fun x => x = 0.0 \/ x = 1.0)
       (List.skipn 4 (extract_features Py query)).
Proof.
  split; [| split].
  - unfold extract_features. rewrite !length_app, !length_map. reflexivity.
  - unfold extract_features. cbn [List.firstn List.app].
    repeat constructor; unfold Qle, Qnat; simpl; lia.
  - unfold extract_features. cbn [List.skipn List.app].
    apply Forall_forall. intros x Hx.
    repeat (apply in_app_or in Hx; destruct Hx as [Hx | Hx]);
      apply in_map_iff in Hx; destruct Hx as (p & <- & _);
      apply one_hot_cases.
Qed.

(** X7.  The entries of the simple patterns tell how the heuristics
    decide: one of them is 1 exactly when the query is classified simple
    on a pattern, which the classification then reports. *)
Theorem simple_features_decide (query : pystr) :
  List.existsb (fun x => Qeq_bool x 1.0)
    (List.firstn 8 (List.skipn 4 (extract_features Py query))) = true
  <-> (cl_complexity (_heuristic_classify Py query) = SIMPLE
       /\ pattern_match (cl_features (_heuristic_classify Py query)) <> None).
Proof.
  change (List.firstn 8 (List.skipn 4 (extract_features Py query)))
    with (List.map (fun p => one_hot (re_search_ignorecase Py p query))
            simple_patterns).
  rewrite existsb_one_hot. fold (matches_any Py simple_patterns query).
  unfold _heuristic_classify.
  destruct (first_match Py simple_patterns query) as [p |] eqn:Es.
  - rewrite (first_match_some _ _ _ Es).
    cbn [cl_complexity cl_features pattern_match].
    split; [intros _; split; [reflexivity | discriminate] | reflexivity].
  - apply first_match_none in Es. rewrite Es.
    split; [discriminate |]. intros [Hc H]. exfalso.
    destruct (first_match Py complex_patterns query).
    + cbn [cl_complexity] in Hc.
      destruct (2 <=? _)%nat in Hc; discriminate.
    + apply H.
      destruct (List.length (str_split query) <? 10)%nat;
        [| destruct (List.length (str_split query) <? 30)%nat;
           [| destruct (List.length (str_split query) <? 50)%nat ] ];
        destruct (1 <? str_count 63 query)%nat;
        destruct (re_search_enumeration Py query); reflexivity.
Qed.

(** The confidence of a classification exceeds 0.7 exactly when a
    pattern occurs in the query. *)
Lemma confidence_exceeds_threshold (query : pystr) :
  Qltb 0.7 (cl_confidence (_heuristic_classify Py query))
  = matches_any Py simple_patterns query
    || matches_any Py complex_patterns query.
Proof.
  unfold _heuristic_classify.
  destruct (first_match Py simple_patterns query) as [p |] eqn:Es.
  - rewrite (first_match_some _ _ _ Es). reflexivity.
  - apply first_match_none in Es. rewrite Es.
    destruct (first_match Py complex_patterns query) as [p |] eqn:Ec.
    + rewrite (first_match_some _ _ _ Ec). reflexivity.
    + apply first_match_none in Ec. rewrite Ec.
      destruct (List.length (str_split query) <? 10)%nat;
        [| destruct (List.length (str_split query) <? 30)%nat;
           [| destruct (List.length (str_split query) <? 50)%nat ] ];
        destruct (1 <? str_count 63 query)%nat;
        destruct (re_search_enumeration Py query); reflexivity.
Qed.

(** X8.  The time estimate of a decision of the router, by the
    complexity of the query: 100 ms for simple (classic), 200 ms (classic)
    or 1500 ms (hybrid) for moderate, 4000 ms for complex and 6000 ms for
    multi_hop (agentic).  Every estimate lies between 5 and 6000 ms. *)
Theorem routed_time_estimates (m : QueryMetadata) :
  (let d := route Py m in
   match complexity m with
   | SIMPLE => strategy d = CLASSIC_RAG /\ estimated_time_ms d = 100%Z
   | MODERATE =>
       (strategy d = CLASSIC_RAG /\ estimated_time_ms d = 200%Z)
       \/ (strategy d = HYBRID /\ estimated_time_ms d = 1500%Z)
   | COMPLEX => strategy d = AGENTIC_RAG /\ estimated_time_ms d = 4000%Z
   | MULTI_HOP => strategy d = AGENTIC_RAG /\ estimated_time_ms d = 6000%Z
   end)
  /\ (forall s, (5 <= _estimate_time s m <= 6000)%Z).
Proof.
  split.
  - cbv zeta. unfold route, _estimate_time, _check_resource_availability.
    cbn [strategy estimated_time_ms].
    destruct (complexity m); cbn [_determine_strategy complexity_eqb orb];
      unfold _determine_strategy; cbn [complexity_eqb orb];
      try (split; reflexivity).
    destruct (Qltb 0.7 (cl_confidence (classify Py false m)));
      [left | right]; split; reflexivity.
  - intro s. unfold _estimate_time.
    destruct s, (complexity m); vm_compute; split; discriminate.
Qed.

(** X9.  The cost estimate grows with the length of the query and is
    never below the base cost of the strategy; a cache answer costs
    nothing at any length. *)
Theorem estimate_cost_grows_with_length (s : RoutingStrategy)
    (m1 m2 : QueryMetadata)
    (H : (List.length (original_query m1) <= List.length (original_query m2))%nat) :
  _estimate_cost s m1 <= _estimate_cost s m2
  /\ base_costs s <= _estimate_cost s m1
  /\ _estimate_cost CACHE m1 == 0.
Proof.
  unfold _estimate_cost.
  set (n1 := List.length (original_query m1)) in *.
  set (n2 := List.length (original_query m2)) in *.
  assert (Hb : 0 <= base_costs s) by (destruct s; discriminate).
  assert (Hi : 0 <= / 1000.0) by discriminate.
  assert (Hx : 0 <= Qnat n1 / 1000.0).
  { unfold Qdiv. apply Qmult_le_0_compat; [| exact Hi].
    unfold Qle, Qnat. simpl. lia. }
  assert (Hm : Qnat n1 / 1000.0 <= Qnat n2 / 1000.0).
  { unfold Qdiv. apply Qmult_le_compat_r; [| exact Hi].
    unfold Qle, Qnat. simpl. lia. }
  split; [| split].
  - rewrite !(Qmult_comm (base_costs s)).
    apply Qmult_le_compat_r; [| exact Hb].
    apply Qplus_le_r. exact Hm.
  - apply Qle_trans with (y := 1 * base_costs s).
    + rewrite Qmult_1_l. apply Qle_refl.
    + rewrite (Qmult_comm (base_costs s)).
      apply Qmult_le_compat_r; [| exact Hb].
      apply Qle_trans with (y := 1.0 + 0); [discriminate |].
      apply Qplus_le_r. exact Hx.
  - unfold base_costs, Qeq, Qmult. simpl. reflexivity.
Qed.

(** X10.  The strategy of an unforced query, read off its text.  Fewer
    than 15 words: classic.  30 words or more: agentic.  From 15 to 29
    words: classic when a simple or complex pattern occurs in the
    lower-cased text, hybrid when none does. *)
Theorem routing_by_text (self : HybridRAG) (query id : pystr)
    (uid sid : option pystr) :
  let n := List.length (str_split query) in
  let s := strategy (route Py (_analyze_query self query id uid sid)) in
  let lowered := str_lower Py query in
  ((n < 15)%nat -> s = CLASSIC_RAG)
  /\ ((30 <= n)%nat -> s = AGENTIC_RAG)
  /\ ((15 <= n < 30)%nat ->
      (matches_any Py simple_patterns lowered
       || matches_any Py complex_patterns lowered = true -> s = CLASSIC_RAG)
      /\ (matches_any Py simple_patterns lowered
          || matches_any Py complex_patterns lowered = false -> s = HYBRID)).
Proof.
  cbv zeta. unfold route, _check_resource_availability, classify.
  cbn [strategy].
  change (original_query (_analyze_query self query id uid sid)) with query.
  unfold _analyze_query. cbv zeta. cbn [complexity].
  set (n := List.length (str_split query)).
  rewrite (@score_ltb n 3), (@score_ltb n 6), (@score_ltb n 8) by lia.
  unfold _determine_strategy.
  destruct (Z.ltb_spec (Z.of_nat n) (3 * 5));
    destruct (Z.ltb_spec (Z.of_nat n) (6 * 5));
    destruct (Z.ltb_spec (Z.of_nat n) (8 * 5));
    cbn [complexity_eqb orb];
    repeat split; intros; repeat split; intros; try reflexivity; try lia;
    rewrite confidence_exceeds_threshold;
    match goal with H : _ || _ = _ |- _ => rewrite H end; reflexivity.
Qed.

End FeatureFacts.

(* ================================================================== *)
(** * Further properties: what a query calls, stores and returns *)

Section DispatchFacts.

Variable Py : PyRuntime.
Variable W : Type.
Variable C : Collaborators W.
Variable self : HybridRAG.

Lemma classic_meta (m : QueryMetadata) (w : World W) (r : QueryResult) :
  fst (_execute_classic_rag C m w) = Return r ->
  result_query_id r = query_id m /\ metadata r = m.
Proof.
  unfold _execute_classic_rag. unfold_monad. simpl.
  destruct (classic_process C m (collab w)) as [[out | e] s]; simpl;
    [destruct (out_answer out); simpl |];
    intro H; inversion H; split; reflexivity.
Qed.

Lemma agentic_meta (m : QueryMetadata) (w : World W) (r : QueryResult) :
  fst (_execute_agentic_rag C m w) = Return r ->
  result_query_id r = query_id m /\ metadata r = m.
Proof.
  unfold _execute_agentic_rag. unfold_monad. simpl.
  destruct (orchestrate C m (collab w)) as [[out | e] s]; simpl;
    [destruct (out_answer out); simpl |];
    intro H; inversion H; split; reflexivity.
Qed.

Lemma execute_query_meta (m : QueryMetadata) (d : RoutingDecision)
    (w : World W) (r : QueryResult) :
  fst (_execute_query Py C m d w) = Return r ->
  result_query_id r = query_id m /\ metadata r = m.
Proof.
  unfold _execute_query. destruct (strategy d); simpl.
  - apply classic_meta.
  - apply agentic_meta.
  - rewrite hybrid_outcome, gather_outcome.
    pose proof (classic_meta m w) as Hc.
    pose proof (agentic_meta m (snd (_execute_classic_rag C m w))) as Ha.
    destruct (fst (_execute_classic_rag C m w)) as [c | ec];
      destruct (fst (_execute_agentic_rag C m (snd (_execute_classic_rag C m w))))
        as [a | ea]; try discriminate.
    intro H. injection H as <-.
    destruct (Qltb (confidence_score c) (confidence_score a)); cbn; auto.
  - discriminate.
Qed.

(** A failed execution ends the dispatch at once. *)
Lemma dispatch_raise (start : Q) (m : QueryMetadata)
    (force : option RoutingStrategy) (w : World W) (e : pystr) :
  fst (_execute_query Py C m (_route_query Py m force) w) = Raise e ->
  query_dispatch Py C self start m force w
  = (Raise e, snd (_execute_query Py C m (_route_query Py m force) w)).
Proof.
  unfold query_dispatch, bind.
  destruct (_execute_query Py C m (_route_query Py m force) w) as [o w1].
  simpl. intros ->. reflexivity.
Qed.

(** A result of the dispatch is the result of the execution, with the
    whole elapsed time as its latency. *)
Lemma dispatch_return (start : Q) (m : QueryMetadata)
    (force : option RoutingStrategy) (w : World W) (r : QueryResult) :
  let out := query_dispatch Py C self start m force w in
  fst out = Return r ->
  exists r0,
    fst (_execute_query Py C m (_route_query Py m force) w) = Return r0
    /\ r = set_latency_ms r0
             (elapsed_ms (time_time C (collab (snd out))) start).
Proof.
  cbv zeta. unfold query_dispatch, bind.
  destruct (_execute_query Py C m (_route_query Py m force) w) as [[r0 | e] w1];
    [| discriminate].
  unfold _save_to_cache, _collect_metrics, call, ret, now. simpl.
  destruct (cache_enabled self); simpl.
  - destruct (cache_set C (original_query m) r0 (embedding m)
                (execution_path r0) (collab w1)) as [[[] | e] s1]; simpl;
      [| discriminate].
    destruct (monitoring_enabled self); simpl.
    + match goal with
      | |- context [metrics_record C ?x ?y] =>
          destruct (metrics_record C x y) as [[[] | e] s2]
      end; simpl; [| discriminate].
      intro H. injection H as <-. exists r0. auto.
    + intro H. injection H as <-. exists r0. auto.
  - destruct (monitoring_enabled self); simpl.
    + match goal with
      | |- context [metrics_record C ?x ?y] =>
          destruct (metrics_record C x y) as [[[] | e] s2]
      end; simpl; [| discriminate].
      intro H. injection H as <-. exists r0. auto.
    + intro H. injection H as <-. exists r0. auto.
Qed.

(** The calls of the dispatch after the pipelines, by what is enabled. *)
Lemma dispatch_trace (start : Q) (m : QueryMetadata)
    (force : option RoutingStrategy) (w : World W) :
  let out := query_dispatch Py C self start m force w in
  exists rest,
    trace (snd out)
    = trace w ++ pipeline_calls (strategy (_route_query Py m force)) ++ rest
    /\ (cache_enabled self = false -> existsb is_cache_call rest = false)
    /\ (monitoring_enabled self = false -> ~ In MetricsRecord rest).
Proof.
  cbv zeta. unfold query_dispatch, bind.
  destruct (execute_query_run Py C m (_route_query Py m force) w) as [Ht _].
  destruct (_execute_query Py C m (_route_query Py m force) w) as [[r | e] w1];
    simpl in Ht.
  2:{ simpl. exists []. rewrite app_nil_r. simpl. auto. }
  unfold _save_to_cache, _collect_metrics, call, ret, now.
  destruct (cache_enabled self), (monitoring_enabled self); simpl;
    repeat match goal with
      | |- context [cache_set C ?a ?b ?c ?d ?x] =>
          destruct (cache_set C a b c d x) as [[[] | ?] ?]; simpl
      | |- context [metrics_record C ?x ?y] =>
          destruct (metrics_record C x y) as [[[] | ?] ?]; simpl
      end;
    rewrite Ht;
    first
      [ exists [CacheSet (original_query m); MetricsRecord];
        rewrite <- !app_assoc; simpl; repeat split; congruence
      | exists [CacheSet (original_query m)];
        rewrite <- !app_assoc; simpl; repeat split;
        try congruence; intros _ [H | []]; discriminate
      | exists [MetricsRecord];
        rewrite <- !app_assoc; simpl; repeat split; congruence
      | exists []; rewrite app_nil_r; simpl; repeat split; auto ].
Qed.

Lemma pipeline_calls_only (s : RoutingStrategy) :
  existsb is_cache_call (pipeline_calls s) = false
  /\ ~ In MetricsRecord (pipeline_calls s).
Proof.
  destruct s; simpl; split; try reflexivity; intuition discriminate.
Qed.

Lemma query_try_not_consulted (start : Q) (m : QueryMetadata)
    (force : option RoutingStrategy) (w : World W) :
  cache_consulted self force = false ->
  query_try Py C self start m force w
  = query_dispatch Py C self start m force w.
Proof.
  intro H. unfold query_try, bind. rewrite H. reflexivity.
Qed.

(** With a metrics collector that raises, the dispatch never returns. *)
Lemma dispatch_metrics_down (start : Q) (m : QueryMetadata)
    (force : option RoutingStrategy) (w : World W) (e : pystr) :
  monitoring_enabled self = true ->
  (forall sample s, fst (metrics_record C sample s) = Raise e) ->
  exists e', fst (query_dispatch Py C self start m force w) = Raise e'.
Proof.
  intros Hmon Hm. unfold query_dispatch, bind.
  destruct (_execute_query Py C m (_route_query Py m force) w) as [[r | e0] w1];
    [| eexists; reflexivity].
  unfold _save_to_cache, _collect_metrics, call, ret, now. rewrite Hmon.
  destruct (cache_enabled self); simpl.
  - destruct (cache_set C (original_query m) r (embedding m)
                (execution_path r) (collab w1)) as [[[] | e1] s1]; simpl;
      [| eexists; reflexivity].
    match goal with
    | |- context [metrics_record C ?x ?y] =>
        pose proof (Hm x y) as Hx; destruct (metrics_record C x y) as [o s2]
    end. simpl in Hx. subst o. simpl. eexists; reflexivity.
  - match goal with
    | |- context [metrics_record C ?x ?y] =>
        pose proof (Hm x y) as Hx; destruct (metrics_record C x y) as [o s2]
    end. simpl in Hx. subst o. simpl. eexists; reflexivity.
Qed.

End DispatchFacts.

Section QueryBehaviour.

Variable Py : PyRuntime.
Variable W : Type.
Variable C : Collaborators W.
Variable self : HybridRAG.

(** X15.  What the execution of a strategy calls, whatever the
    pipelines return or raise: the classic execution calls the classic
    pipeline once, the agentic execution the orchestrator once, the hybrid
    execution both, the orchestrator also after the classic pipeline has
    failed; no execution calls the cache or the metrics. *)
Theorem execution_calls (m : QueryMetadata) (d : RoutingDecision) (w : World W) :
  trace (snd (_execute_classic_rag C m w)) = trace w ++ [ClassicProcess]
  /\ trace (snd (_execute_agentic_rag C m w)) = trace w ++ [Orchestrate]
  /\ trace (snd (_execute_hybrid C m w))
     = trace w ++ [ClassicProcess; Orchestrate]
  /\ trace (snd (_execute_query Py C m d w))
     = trace w ++ pipeline_calls (strategy d)
  /\ existsb is_cache_call (pipeline_calls (strategy d)) = false
  /\ ~ In MetricsRecord (pipeline_calls (strategy d)).
Proof.
  split; [apply classic_run |]. split; [apply agentic_run |].
  split; [apply hybrid_run |]. split; [apply execute_query_run |].
  apply pipeline_calls_only.
Qed.

(** X11.  When the cache is not consulted and the execution of the
    strategy raises, [query] returns the error result with the message of
    the exception, and nothing is written to the cache or reported to the
    metrics: the only calls are those of the pipelines. *)
Theorem failed_execution_writes_nothing (text : pystr) (uid sid : option pystr)
    (force : option RoutingStrategy) (w : World W) (e : pystr) :
  let id := fst (uuid4 C (collab w)) in
  let w1 := {| collab := snd (uuid4 C (collab w)); trace := trace w |} in
  let m := _analyze_query self text id uid sid in
  let d := _route_query Py m force in
  cache_consulted self force = false ->
  fst (_execute_query Py C m d w1) = Raise e ->
  let out := query Py C self text uid sid force w in
  error (fst out) = Some e
  /\ answer (fst out) = apology
  /\ trace (snd out) = trace w ++ pipeline_calls (strategy d).
Proof.
  cbv zeta. intros Hc He. rewrite query_unfold. cbv zeta. cbn [fst snd].
  rewrite (query_try_not_consulted _ _ _ _ _ _ _ Hc).
  rewrite (dispatch_raise _ _ _ _ _ _ _ He). cbn [fst snd].
  repeat split.
  exact (proj1 (execute_query_run Py C _ _
                  {| collab := snd (uuid4 C (collab w)); trace := trace w |})).
Qed.

(** X12.  With monitoring enabled and a metrics collector that raises,
    no computed answer reaches the caller: every result of [query] is a
    cached entry or an error result. *)
Theorem failing_metrics_fail_the_query (e : pystr)
    (Hmon : monitoring_enabled self = true)
    (Hm : forall sample s, fst (metrics_record C sample s) = Raise e)
    (text : pystr) (uid sid : option pystr)
    (force : option RoutingStrategy) (w : World W) :
  let r := fst (query Py C self text uid sid force w) in
  cached r = true \/ exists e', error r = Some e'.
Proof.
  cbv zeta. rewrite query_unfold. cbv zeta. cbn [fst].
  set (m := _analyze_query self text (fst (uuid4 C (collab w))) uid sid).
  set (w1 := {| collab := snd (uuid4 C (collab w)); trace := trace w |}).
  destruct (query_try_cases Py C self (time_time C (collab w)) m force w1)
    as [(_ & d & _ & Ho) | [(_ & e1 & _ & Ho) | [(_ & _ & Ho) | (_ & Ho)]]];
    cbv zeta in Ho; rewrite Ho.
  - left. reflexivity.
  - right. eexists. reflexivity.
  - right.
    match goal with
    | |- context [query_dispatch Py C self ?st m force ?x] =>
        destruct (dispatch_metrics_down Py C self st m force x Hmon Hm) as [e' He]
    end.
    rewrite He. eexists. reflexivity.
  - right.
    destruct (dispatch_metrics_down Py C self (time_time C (collab w)) m force w1
                Hmon Hm) as [e' He].
    rewrite He. eexists. reflexivity.
Qed.

(** X13.  A component that is switched off is never called: with the
    cache disabled no call of a query is a cache lookup or a cache write,
    and with monitoring disabled none is a metrics record. *)
Theorem disabled_components_are_not_called (text : pystr)
    (uid sid : option pystr) (force : option RoutingStrategy) (w : World W) :
  let out := query Py C self text uid sid force w in
  exists calls,
    trace (snd out) = trace w ++ calls
    /\ (cache_enabled self = false -> existsb is_cache_call calls = false)
    /\ (monitoring_enabled self = false -> ~ In MetricsRecord calls).
Proof.
  cbv zeta. rewrite query_unfold. cbv zeta. cbn [snd].
  set (m := _analyze_query self text (fst (uuid4 C (collab w))) uid sid).
  set (w1 := {| collab := snd (uuid4 C (collab w)); trace := trace w |}).
  assert (Hon : cache_consulted self force = true -> cache_enabled self = true).
  { unfold cache_consulted. intro H. apply andb_true_iff in H. tauto. }
  destruct (pipeline_calls_only (strategy (_route_query Py m force))) as [Hp1 Hp2].
  destruct (query_try_cases Py C self (time_time C (collab w)) m force w1)
    as [(Hl & d & _ & Ho) | [(Hl & e1 & _ & Ho) | [(Hl & _ & Ho) | (Hl & Ho)]]];
    cbv zeta in Ho; rewrite Ho.
  - exists [CacheGet (original_query m)]. cbn [snd trace].
    repeat split; [intro H; rewrite (Hon Hl) in H; discriminate |].
    intros _ [H | []]. discriminate.
  - exists [CacheGet (original_query m)]. cbn [snd trace].
    repeat split; [intro H; rewrite (Hon Hl) in H; discriminate |].
    intros _ [H | []]. discriminate.
  - match goal with
    | |- context [query_dispatch Py C self ?st m force ?x] =>
        destruct (dispatch_trace Py C self st m force x) as (rest & Ht & Hc & Hmo)
    end.
    exists ([CacheGet (original_query m)]
              ++ pipeline_calls (strategy (_route_query Py m force)) ++ rest).
    rewrite Ht. cbn [trace]. rewrite <- !app_assoc.
    repeat split; [intro H; rewrite (Hon Hl) in H; discriminate |].
    intros Hoff Hin. apply in_app_or in Hin. destruct Hin as [[H | []] | Hin];
      [discriminate |].
    apply in_app_or in Hin. destruct Hin as [Hin | Hin]; [exact (Hp2 Hin) |].
    exact (Hmo Hoff Hin).
  - destruct (dispatch_trace Py C self (time_time C (collab w)) m force w1)
      as (rest & Ht & Hc & Hmo).
    exists (pipeline_calls (strategy (_route_query Py m force)) ++ rest).
    rewrite Ht. cbn [trace]. repeat split.
    + intro Hoff. rewrite existsb_app, Hp1, (Hc Hoff). reflexivity.
    + intros Hoff Hin. apply in_app_or in Hin.
      destruct Hin as [Hin | Hin]; [exact (Hp2 Hin) | exact (Hmo Hoff Hin)].
Qed.

(** X14.  A pipeline dictionary without the key [answer] is an error:
    [simple_query] returns the error result whose message is the missing
    key, and writes nothing to the cache. *)
Theorem missing_answer_is_an_error (text : pystr) (uid sid : option pystr)
    (w : World W) (po : PipelineOutput) :
  let id := fst (uuid4 C (collab w)) in
  let w1 := {| collab := snd (uuid4 C (collab w)); trace := trace w |} in
  let m := _analyze_query self text id uid sid in
  fst (classic_process C m (collab w1)) = Return po ->
  out_answer po = None ->
  let out := simple_query Py C self text uid sid w in
  error (fst out) = Some (u "'answer'")
  /\ trace (snd out) = trace w ++ [ClassicProcess].
Proof.
  cbv zeta. intros Hp Ha.
  set (m := _analyze_query self text (fst (uuid4 C (collab w))) uid sid) in *.
  set (w1 := {| collab := snd (uuid4 C (collab w)); trace := trace w |}) in *.
  assert (He : fst (_execute_query Py C m (_route_query Py m (Some CLASSIC_RAG)) w1)
               = Raise (u "'answer'")).
  { change (_execute_query Py C m (_route_query Py m (Some CLASSIC_RAG)))
      with (_execute_classic_rag C m).
    unfold _execute_classic_rag. unfold_monad. simpl.
    unfold w1 in Hp. simpl in Hp.
    destruct (classic_process C m (snd (uuid4 C (collab w)))) as [o s].
    simpl in Hp. subst o. simpl. rewrite Ha. reflexivity. }
  unfold simple_query. rewrite query_unfold. cbv zeta. cbn [fst snd].
  fold m w1.
  rewrite (query_try_not_consulted Py C self _ m _ w1
             (forced_not_consulted self CLASSIC_RAG)).
  rewrite (dispatch_raise _ _ _ _ _ _ _ He). cbn [fst snd].
  split; [reflexivity |].
  exact (proj1 (execute_query_run Py C m (_route_query Py m (Some CLASSIC_RAG)) w1)).
Qed.

(** X16.  A result that is not marked cached belongs to this query: it
    carries the identifier generated for the query and the metadata of its
    analysis, and its latency is the time elapsed between the first and
    the last reading of the clock. *)
Theorem fresh_result_belongs_to_query (text : pystr) (uid sid : option pystr)
    (force : option RoutingStrategy) (w : World W) :
  let out := query Py C self text uid sid force w in
  let id := fst (uuid4 C (collab w)) in
  cached (fst out) = false ->
  result_query_id (fst out) = id
  /\ metadata (fst out) = _analyze_query self text id uid sid
  /\ latency_ms (fst out)
     = elapsed_ms (time_time C (collab (snd out))) (time_time C (collab w)).
Proof.
  cbv zeta. rewrite query_unfold. cbv zeta. cbn [fst snd].
  set (m := _analyze_query self text (fst (uuid4 C (collab w))) uid sid).
  set (w1 := {| collab := snd (uuid4 C (collab w)); trace := trace w |}).
  assert (Hd : forall x,
             let o := query_dispatch Py C self (time_time C (collab w)) m force x in
             let r := match fst o with
                      | Return r => r
                      | Raise e =>
                          _create_error_result (fst (uuid4 C (collab w))) (Some m) e
                            (elapsed_ms (time_time C (collab (snd o)))
                               (time_time C (collab w)))
                      end in
             result_query_id r = fst (uuid4 C (collab w))
             /\ metadata r = m
             /\ latency_ms r
                = elapsed_ms (time_time C (collab (snd o))) (time_time C (collab w))).
  { intro x. cbv zeta.
    pose proof (dispatch_return Py C self (time_time C (collab w)) m force x) as Hr.
    cbv zeta in Hr.
    destruct (fst (query_dispatch Py C self (time_time C (collab w)) m force x))
      as [r | e].
    - destruct (Hr r eq_refl) as (r0 & H0 & ->).
      destruct (execute_query_meta Py C m _ x H0) as [Hi Hm].
      cbn. rewrite Hi, Hm. repeat split.
    - repeat split. }
  destruct (query_try_cases Py C self (time_time C (collab w)) m force w1)
    as [(_ & d & _ & Ho) | [(_ & e1 & _ & Ho) | [(_ & _ & Ho) | (_ & Ho)]]];
    cbv zeta in Ho; rewrite Ho.
  - cbn. discriminate.
  - intros _. repeat split.
  - intros _. apply Hd.
  - intros _. apply Hd.
Qed.

(** X17.  A forced strategy is honoured: a result of [query] without an
    error carries the forced strategy, used no fallback, and the forced
    strategy was not the cache strategy, which always ends in an error. *)
Theorem forced_strategy_is_honoured (text : pystr) (uid sid : option pystr)
    (s : RoutingStrategy) (w : World W) :
  let r := fst (query Py C self text uid sid (Some s) w) in
  error r = None ->
  strategy_used r = s /\ fallback_used r = false /\ s <> CACHE.
Proof.
  cbv zeta. rewrite query_unfold. cbv zeta. cbn [fst].
  rewrite (query_try_not_consulted Py C self _ _ _ _ (forced_not_consulted self s)).
  match goal with
  | |- context [query_dispatch Py C self ?st ?m (Some s) ?x] =>
      destruct (dispatch_run Py C self st m (Some s) x) as [_ Hr];
      cbv zeta in Hr;
      destruct (fst (query_dispatch Py C self st m (Some s) x)) as [r | e]
  end.
  - intros _. destruct (Hr r eq_refl) as [(Hs & _ & Hf & _) Hn].
    cbn [_route_query strategy] in Hs, Hn. auto.
  - cbn. discriminate.
Qed.

End QueryBehaviour.

(* ================================================================== *)
(** * The further properties on concrete runs *)

(** X4, witness: the definitional query reports its first pattern. *)
Lemma reported_pattern_witness :
  let q := str_lower basic_runtime python_question in
  re_search_ignorecase basic_runtime (u "что такое") q = true
  /\ ((cl_complexity (_heuristic_classify basic_runtime q) = SIMPLE
       /\ exists before after,
           simple_patterns = before ++ u "что такое" :: after
           /\ matches_any basic_runtime before q = false)
      \/ (matches_any basic_runtime simple_patterns q = false
          /\ exists before after,
              complex_patterns = before ++ u "что такое" :: after
              /\ matches_any basic_runtime before q = false)).
Proof.
  apply (@reported_pattern_is_first_match basic_runtime
           (str_lower basic_runtime python_question) (u "что такое")).
  vm_compute. reflexivity.
Defined.

(** X5, witness: two question marks and no pattern. *)
Lemma structural_classification_witness :
  let q := u "python? rust?" in
  let c := cl_complexity (_heuristic_classify basic_runtime q) in
  ((2 <= str_count 63 q)%nat -> c = MULTI_HOP)
  /\ (re_search_enumeration basic_runtime q = true -> c <> SIMPLE)
  /\ (c = SIMPLE ->
      (List.length (str_split q) < 10)%nat
      /\ (str_count 63 q <= 1)%nat
      /\ re_search_enumeration basic_runtime q = false).
Proof.
  apply (@structural_classification basic_runtime (u "python? rust?"));
    vm_compute; reflexivity.
Defined.

(** X9, witness: the agentic estimate of a short and of a long query. *)
Lemma estimate_cost_witness :
  let m1 := python_metadata in
  let m2 := _analyze_query the_rag (words 20) (u "query-1") None None in
  _estimate_cost AGENTIC_RAG m1 <= _estimate_cost AGENTIC_RAG m2
  /\ base_costs AGENTIC_RAG <= _estimate_cost AGENTIC_RAG m1
  /\ _estimate_cost CACHE m1 == 0.
Proof.
  apply (@estimate_cost_grows_with_length AGENTIC_RAG python_metadata
           (_analyze_query the_rag (words 20) (u "query-1") None None)).
  apply Nat.leb_le. vm_compute. reflexivity.
Defined.

(** X11, witness: the forced classic strategy with the classic pipeline
    down. *)
Lemma failed_execution_witness :
  let out := query basic_runtime lab_classic_down the_rag python_question
               None None (Some CLASSIC_RAG) fresh_world in
  error (fst out) = Some (u "classic down")
  /\ answer (fst out) = apology
  /\ trace (snd out) = trace fresh_world ++ [ClassicProcess].
Proof.
  apply (@failed_execution_writes_nothing basic_runtime Lab lab_classic_down
           the_rag python_question None None (Some CLASSIC_RAG) fresh_world
           (u "classic down")).
  - reflexivity.
  - reflexivity.
Defined.

(** X12, witness: the classic pipeline answers and the cache is written,
    yet the caller gets the error of the metrics collector. *)
Lemma failing_metrics_witness :
  let out := query basic_runtime lab_metrics_down the_rag python_question
               None None None fresh_world in
  (cached (fst out) = true \/ exists e', error (fst out) = Some e')
  /\ error (fst out) = Some (u "metrics down")
  /\ trace (snd out)
     = [CacheGet python_question; ClassicProcess; CacheSet python_question;
        MetricsRecord].
Proof.
  split.
  - apply (@failing_metrics_fail_the_query basic_runtime Lab lab_metrics_down
             the_rag (u "metrics down")).
    + reflexivity.
    + intros sample s. reflexivity.
  - vm_compute. split; reflexivity.
Defined.

(** X14, witness: a classic pipeline that returns no answer. *)
Lemma missing_answer_witness :
  let out := simple_query basic_runtime lab_no_answer the_rag python_question
               None None fresh_world in
  error (fst out) = Some (u "'answer'")
  /\ trace (snd out) = trace fresh_world ++ [ClassicProcess].
Proof.
  apply (@missing_answer_is_an_error basic_runtime Lab lab_no_answer the_rag
           python_question None None fresh_world
           {| out_answer := None; out_confidence := Some 0.8;
              out_relevance := None; out_tokens_used := None; out_cost := None;
              out_documents := None; out_agents_used := None;
              out_agent_results := None; out_execution_path := None;
              out_reasoning_chain := None |}).
  - reflexivity.
  - reflexivity.
Defined.

(** X16, witness: the first answer to the definitional query. *)
Lemma fresh_result_witness :
  let out := query basic_runtime lab_ok the_rag python_question
               None None None fresh_world in
  let id := fst (uuid4 lab_ok (collab fresh_world)) in
  result_query_id (fst out) = id
  /\ metadata (fst out) = _analyze_query the_rag python_question id None None
  /\ latency_ms (fst out)
     = elapsed_ms (time_time lab_ok (collab (snd out)))
         (time_time lab_ok (collab fresh_world)).
Proof.
  apply (@fresh_result_belongs_to_query basic_runtime Lab lab_ok the_rag
           python_question None None None fresh_world).
  reflexivity.
Defined.

(** X17, witness: [complex_query] answered by the orchestrator. *)
Lemma forced_strategy_witness :
  let r := fst (query basic_runtime lab_ok the_rag python_question
                  None None (Some AGENTIC_RAG) fresh_world) in
  strategy_used r = AGENTIC_RAG /\ fallback_used r = false
  /\ AGENTIC_RAG <> CACHE.
Proof.
  apply (@forced_strategy_is_honoured basic_runtime Lab lab_ok the_rag
           python_question None None AGENTIC_RAG fresh_world).
  reflexivity.
Defined.

(* ================================================================== *)
(** * Further properties: the cache lookup *)

Section LookupFacts.

Variable Py : PyRuntime.
Variable W : Type.
Variable C : Collaborators W.
Variable self : HybridRAG.

(** X19.  A cache hit ends the query at once: the result is the entry
    marked cached, and the lookup is the only call made; no pipeline runs,
    the cache is not written again and no metrics are recorded. *)
Theorem cache_hit_short_circuits (text : pystr) (uid sid : option pystr)
    (w : World W) :
  let lookup := cache_get C text None (snd (uuid4 C (collab w))) in
  cache_consulted self None = true ->
  (exists d, fst lookup = Return (Some d)) ->
  let out := query Py C self text uid sid None w in
  cached (fst out) = true
  /\ trace (snd out) = trace w ++ [CacheGet text]
  /\ collab (snd out) = snd lookup.
Proof.
  cbv zeta. intros Hl [d Hd]. rewrite query_unfold. cbv zeta.
  set (m := _analyze_query self text (fst (uuid4 C (collab w))) uid sid).
  set (w1 := {| collab := snd (uuid4 C (collab w)); trace := trace w |}).
  destruct (query_try_cases Py C self (time_time C (collab w)) m None w1)
    as [(_ & d' & _ & Ho) | [(_ & e1 & Hg & _) | [(_ & Hg & _) | (Hn & _)]]];
    cbv zeta in *.
  - rewrite Ho. cbn. repeat split.
  - simpl in Hg. congruence.
  - simpl in Hg. congruence.
  - congruence.
Qed.

(** X20.  An exception of the cache lookup is not absorbed: [query]
    returns the error result with its message, and no pipeline is called. *)
Theorem cache_lookup_error_is_fatal (text : pystr) (uid sid : option pystr)
    (w : World W) (e : pystr) :
  cache_consulted self None = true ->
  fst (cache_get C text None (snd (uuid4 C (collab w)))) = Raise e ->
  let out := query Py C self text uid sid None w in
  error (fst out) = Some e
  /\ answer (fst out) = apology
  /\ trace (snd out) = trace w ++ [CacheGet text].
Proof.
  intros Hl He. cbv zeta. rewrite query_unfold. cbv zeta.
  set (m := _analyze_query self text (fst (uuid4 C (collab w))) uid sid).
  set (w1 := {| collab := snd (uuid4 C (collab w)); trace := trace w |}).
  destruct (query_try_cases Py C self (time_time C (collab w)) m None w1)
    as [(_ & d' & Hg & _) | [(_ & e1 & Hg & Ho) | [(_ & Hg & _) | (Hn & _)]]];
    cbv zeta in *.
  - simpl in Hg. congruence.
  - rewrite Ho. simpl in Hg. cbn. repeat split. congruence.
  - simpl in Hg. congruence.
  - congruence.
Qed.

End LookupFacts.

(** X19, witness: the second of two equal queries. *)
Lemma cache_hit_witness :
  let out := query basic_runtime lab_ok the_rag python_question
               None None None warm_world in
  cached (fst out) = true
  /\ trace (snd out) = trace warm_world ++ [CacheGet python_question]
  /\ collab (snd out)
     = snd (cache_get lab_ok python_question None
              (snd (uuid4 lab_ok (collab warm_world)))).
Proof.
  apply (@cache_hit_short_circuits basic_runtime Lab lab_ok the_rag
           python_question None None warm_world).
  - reflexivity.
  - eexists. vm_compute. reflexivity.
Defined.

(** X20, witness: a cache whose lookup raises. *)
Lemma cache_lookup_error_witness :
  let out := query basic_runtime lab_cache_down the_rag python_question
               None None None fresh_world in
  error (fst out) = Some (u "cache down")
  /\ answer (fst out) = apology
  /\ trace (snd out) = trace fresh_world ++ [CacheGet python_question].
Proof.
  apply (@cache_lookup_error_is_fatal basic_runtime Lab lab_cache_down the_rag
           python_question None None fresh_world (u "cache down")).
  - reflexivity.
  - reflexivity.
Defined.

(** A routed hybrid execution that fails: twenty words with no pattern
    are moderate and routed to hybrid after the lookup missed; the classic
    pipeline is down, and the caller gets the error result. *)
Example routed_hybrid_failure :
  let out := query basic_runtime lab_classic_down the_rag (words 20)
               None None None fresh_world in
  error (fst out) = Some (u "classic down")
  /\ answer (fst out) = apology
  /\ trace (snd out) = [CacheGet (words 20); ClassicProcess; Orchestrate].
Proof. vm_compute. repeat split. Qed.
